(** * Bearer: rule settings and report data

    A shallow embedding of the Go packages [settings] (rule and policy data
    model, YAML hooks, [FromOptions]) and [output] ([GetDataflow]), with the
    properties of the rule-engine specification that concern them.

    Conventions.
    - A Go [string] is a [string]; a Go [int] and a [time.Duration] are [Z].
    - A Go slice is a [Go.slice]: the [nil] slice and the empty non-nil slice
      are different values of length 0, as [Rule.Language] tells them apart.
    - A pointer that is only tested against [nil] and read is an [option].
    - A function returning [(T, error)] or [error] returns a [Go.result];
      a run-time panic is a [Go.outcome]. *)

From Stdlib Require Import ZArith String List.
From stdpp Require Import base option list gmap strings fin_maps.

Set Warnings "-register-all".

Local Open Scope string_scope.
Local Open Scope list_scope.

(** ** Go values *)

Module Go.

(** A slice: [nil], or a (possibly empty) backing sequence. *)
Inductive slice (A : Type) : Type :=
| nil_slice
| mk_slice (elems : list A).
Arguments nil_slice {A}.
Arguments mk_slice {A} elems.

Definition elems {A} (s : slice A) : list A :=
  match s with
  | nil_slice => []
  | mk_slice l => l
  end.

Definition len {A} (s : slice A) : nat := length (elems s).

(** [s == nil] *)
Definition is_nil {A} (s : slice A) : bool :=
  match s with
  | nil_slice => true
  | mk_slice _ => false
  end.

(** The [error] interface, by its message. *)
Definition error := string.

(** What a call that may panic does. *)
Inductive outcome (A : Type) : Type :=
| Val (a : A)
| Panic (msg : string).
Arguments Val {A} a.
Arguments Panic {A} msg.

Definition returns {A} (o : outcome A) : bool :=
  match o with
  | Val _ => true
  | Panic _ => false
  end.

(** What a call returning an [error] does. *)
Inductive result (A : Type) : Type :=
| Ok (a : A)
| Err (e : error).
Arguments Ok {A} a.
Arguments Err {A} e.

Definition bind {A B} (r : result A) (k : A -> result B) : result B :=
  match r with
  | Ok a => k a
  | Err e => Err e
  end.

Definition is_ok {A} (r : result A) : bool :=
  match r with
  | Ok _ => true
  | Err _ => false
  end.

(** A loop over [l] that stops at the first error. *)
Definition traverse {A B} (f : A -> result B) : list A -> result (list B) :=
  fix go (l : list A) : result (list B) :=
    match l with
    | [] => Ok []
    | a :: l' =>
        match f a with
        | Err e => Err e
        | Ok b =>
            match go l' with
            | Err e => Err e
            | Ok bs => Ok (b :: bs)
            end
        end
    end.

(** The same loop over a slice; a [nil] slice stays [nil]. *)
Definition traverse_slice {A B} (f : A -> result B) (s : slice A) : result (slice B) :=
  match s with
  | nil_slice => Ok nil_slice
  | mk_slice l =>
      match traverse f l with
      | Err e => Err e
      | Ok bs => Ok (mk_slice bs)
      end
  end.

(** [s[i]], with the run-time bounds check. *)
Definition index {A} (s : slice A) (i : nat) : outcome A :=
  match elems s !! i with
  | Some a => Val a
  | None => Panic "runtime error: index out of range"
  end.

(** [append(s, a)]: the result is never [nil]. *)
Definition append {A} (s : slice A) (a : A) : slice A :=
  mk_slice (elems s ++ [a]).

End Go.

Import Go.

Notation "x <- r ;; k" := (Go.bind r (fun x => k))
  (at level 100, r at next level, right associativity).

(** ** YAML documents *)

Module Yaml.

(** What the YAML resolver reads a plain scalar as. *)
Inductive Resolved : Type :=
| RNull
| RStr
| RBool (b : bool)
| RInt (z : Z)
| RFloat.

(** A parsed YAML node.  A scalar keeps its text together with its resolved
    value; a mapping keeps its entries in document order, under their keys'
    text. *)
Inductive Node : Type :=
| Scalar (value : string) (resolved : Resolved)
| Mapping (content : list (string * Node))
| Sequence (content : list Node).

(** A plain string scalar. *)
Definition str (s : string) : Node := Scalar s RStr.
(** [true] / [false]. *)
Definition boolean (b : bool) : Node :=
  Scalar (if b then "true" else "false") (RBool b).
(** [~] *)
Definition null : Node := Scalar "~" RNull.

Definition is_null (n : Node) : bool :=
  match n with
  | Scalar _ RNull => true
  | _ => false
  end.

(** The keys of a mapping, in document order. *)
Definition keys (content : list (string * Node)) : list string := map fst content.

End Yaml.

(** ** Packages that are not among the sources *)

(** Modelled from the spec: packages [api], [version_check] and [ignore/types],
    which the spec leaves out of scope (cloud upload, versioning, ignore
    tracking).  Their values only pass through the code below, so each type
    is given by the one field the code reads, or as a token. *)
Module Extern.

Module API.
Record t : Type := mk { Error : option string }.
End API.

Inductive VersionMeta : Type := version_meta (token : nat).

Inductive IgnoredFingerprint : Type := ignored_fingerprint (token : nat).

End Extern.

(** Modelled from the spec: package [flag], which the spec leaves out of scope
    (CLI flag plumbing).  The option structs carry the fields that
    [FromOptions] reads, under the names the source uses. *)
Module Flag.

Definition ReportSecurity : string := "security".

Module ScanOptions.
Record t : Type := mk {
  Force : bool;
  Target : string;
  DiffBaseBranch : string;
  Quiet : bool
}.
Definition zero : t := mk false "" "" false.
End ScanOptions.

Module RuleOptions.
Record t : Type := mk {
  DisableDefaultRules : bool
}.
End RuleOptions.

Module ReportOptions.
Record t : Type := mk {
  Format : string;
  Report : string;
  Output : string
}.
Definition zero : t := mk "" "" "".
End ReportOptions.

Module GeneralOptions.
Record t : Type := mk {
  IgnoreFile : string;
  NoColor : bool;
  DebugProfile : bool;
  Debug : bool;
  LogLevel : string
}.
End GeneralOptions.

Module Options.
Record t : Type := mk {
  Client : option Extern.API.t;
  ExternalRuleDir : slice string;
  ScanOptions : Flag.ScanOptions.t;
  RuleOptions : Flag.RuleOptions.t;
  ReportOptions : Flag.ReportOptions.t;
  GeneralOptions : Flag.GeneralOptions.t
}.
End Options.

End Flag.

(** ** Package [settings]: the data model *)

Module Settings.

(** Modelled from the spec: the constant [LevelLow] of package [types], whose
    declaration is not among the sources; the spec names the default severity
    [low]. *)
Definition LevelLow : string := "low".

Definition Second : Z := 1000000000.
Definition Minute : Z := 60 * Second.

Definition Timeout : Z := 10 * Minute.
Definition TimeoutFileMinimum : Z := 5 * Second.
Definition TimeoutFileMaximum : Z := 30 * Second.
Definition TimeoutFileBytesPerSecond : Z := 1 * 1000.
Definition TimeoutWorkerFileGrace : Z := 5 * Second.
Definition TimeoutWorkerOnline : Z := 60 * Second.
Definition TimeoutWorkerShutdown : Z := 5 * Second.
Definition CodeExtractBuffer : Z := 3.
Definition FileSizeMaximum : Z := 2 * 1000 * 1000.
Definition FilesPerWorker : Z := 1000.
Definition MemorySoftMaximum : Z := 650 * 1000 * 1000.
Definition MemoryMaximum : Z := 800 * 1000 * 1000.
Definition ExistingWorker : string := "".

Module WorkerOptions.
Record t : Type := mk {
  Timeout : Z;
  TimeoutFileMinimum : Z;
  TimeoutFileMaximum : Z;
  TimeoutFileBytesPerSecond : Z;
  TimeoutWorkerOnline : Z;
  FileSizeMaximum : Z;
  ExistingWorker : string
}.
Definition zero : t := mk 0 0 0 0 0 0 "".
End WorkerOptions.

Module PolicyModule.
Record t : Type := mk {
  Path : string;
  Name : string;
  Content : string
}.

(** [module.Content = content] *)
Definition set_Content (content : string) (module : t) : t :=
  mk (Path module) (Name module) content.
End PolicyModule.

Definition Modules := slice PolicyModule.t.

Module Policy.
Record t : Type := mk {
  Type_ : string;
  Query : string;
  Modules : Settings.Modules
}.

Definition set_Modules (modules : Settings.Modules) (policy : t) : t :=
  mk (Type_ policy) (Query policy) modules.
End Policy.

Definition MatchOn := string.
Definition PRESENCE : MatchOn := "presence".
Definition ABSENCE : MatchOn := "absence".
Definition STORED_DATA_TYPES : MatchOn := "stored_data_types".

Definition RuleReferenceScope := string.
Definition CURSOR_STRICT_SCOPE : RuleReferenceScope := "cursor_strict".
Definition CURSOR_SCOPE : RuleReferenceScope := "cursor".
Definition NESTED_SCOPE : RuleReferenceScope := "nested".
Definition NESTED_STRICT_SCOPE : RuleReferenceScope := "nested_strict".
Definition RESULT_SCOPE : RuleReferenceScope := "result".
Definition DefaultScope : RuleReferenceScope := NESTED_SCOPE.

Module RuleTrigger.
Record t : Type := mk {
  MatchOn : Settings.MatchOn;
  DataTypesRequired : bool;
  RequiredDetection : option string
}.
Definition zero : t := mk "" false None.
End RuleTrigger.

Module Dependency.
Record t : Type := mk {
  Filename : string;
  Name : string;
  MinVersion : string
}.
End Dependency.

Module MetaVar.
Record t : Type := mk {
  Input : string;
  Output : Z;
  Regex : string
}.
End MetaVar.

Module RuleReferenceImport.
Record t : Type := mk {
  Variable_ : string;
  As : string
}.
Definition zero : t := mk "" "".
End RuleReferenceImport.

(** Modelled from the spec: the type [Regexp], a compiled regular expression
    whose declaration is not among the sources; it is kept by the text it was
    compiled from. *)
Definition Regexp := string.

Module PatternFilter.
Inductive t : Type := mk {
  Not : option t;
  Either : slice t;
  Variable_ : string;
  Detection : string;
  Scope : RuleReferenceScope;
  Filters : slice t;
  Imports : slice RuleReferenceImport.t;
  (* Contains is deprecated in favour of Scope *)
  Contains : option bool;
  Regex : option Regexp;
  Values : slice string;
  LengthLessThan : option Z;
  LessThan : option Z;
  LessThanOrEqual : option Z;
  GreaterThan : option Z;
  GreaterThanOrEqual : option Z;
  StringRegex : option Regexp;
  FilenameRegex : option Regexp
}.

(** The zero value [PatternFilter{}]. *)
Definition zero : t :=
  mk None nil_slice "" "" "" nil_slice nil_slice None None nil_slice
     None None None None None None None.

(** [filter.Scope = scope] *)
Definition set_Scope (scope : RuleReferenceScope) (filter : t) : t :=
  mk (Not filter) (Either filter) (Variable_ filter) (Detection filter) scope
     (Filters filter) (Imports filter) (Contains filter) (Regex filter)
     (Values filter) (LengthLessThan filter) (LessThan filter)
     (LessThanOrEqual filter) (GreaterThan filter) (GreaterThanOrEqual filter)
     (StringRegex filter) (FilenameRegex filter).
End PatternFilter.

Module RulePattern.
Record t : Type := mk {
  Pattern : string;
  Focus : string;
  Filters : slice PatternFilter.t
}.

(** The zero value [RulePattern{}]. *)
Definition zero : t := mk "" "" nil_slice.

(** [rulePattern.Pattern = pattern] *)
Definition set_Pattern (pattern : string) (rulePattern : t) : t :=
  mk pattern (Focus rulePattern) (Filters rulePattern).
End RulePattern.

Module Rule.
Record t : Type := mk {
  Id : string;
  AssociatedRecipe : string;
  Type_ : string;
  Trigger : RuleTrigger.t;
  IsLocal : bool;
  Detectors : slice string;
  Processors : slice string;
  Stored : bool;
  AutoEncrytPrefix : string;
  HasDetailedContext : bool;
  SkipDataTypes : slice string;
  OnlyDataTypes : slice string;
  Severity : string;
  Description : string;
  RemediationMessage : string;
  CWEIDs : slice string;
  Languages : slice string;
  Patterns : slice RulePattern.t;
  SanitizerRuleID : string;
  DocumentationUrl : string;
  IsAuxilary : bool;
  DependencyCheck : bool;
  Dependency : option Dependency.t;
  (* FIXME: remove after refactor of sql *)
  Metavars : gmap string MetaVar.t;
  ParamParenting : bool;
  DetectPresence : bool;
  OmitParent : bool
}.

(** The zero value [Rule{}]. *)
Definition zero : t :=
  mk "" "" "" RuleTrigger.zero false nil_slice nil_slice false "" false
     nil_slice nil_slice "" "" "" nil_slice nil_slice nil_slice "" "" false
     false None ∅ false false false.

Definition set_Severity (severity : string) (rule : t) : t :=
  mk (Id rule) (AssociatedRecipe rule) (Type_ rule) (Trigger rule)
     (IsLocal rule) (Detectors rule) (Processors rule) (Stored rule)
     (AutoEncrytPrefix rule) (HasDetailedContext rule) (SkipDataTypes rule)
     (OnlyDataTypes rule) severity (Description rule)
     (RemediationMessage rule) (CWEIDs rule) (Languages rule) (Patterns rule)
     (SanitizerRuleID rule) (DocumentationUrl rule) (IsAuxilary rule)
     (DependencyCheck rule) (Dependency rule) (Metavars rule)
     (ParamParenting rule) (DetectPresence rule) (OmitParent rule).

Definition set_Languages (languages : slice string) (rule : t) : t :=
  mk (Id rule) (AssociatedRecipe rule) (Type_ rule) (Trigger rule)
     (IsLocal rule) (Detectors rule) (Processors rule) (Stored rule)
     (AutoEncrytPrefix rule) (HasDetailedContext rule) (SkipDataTypes rule)
     (OnlyDataTypes rule) (Severity rule) (Description rule)
     (RemediationMessage rule) (CWEIDs rule) languages (Patterns rule)
     (SanitizerRuleID rule) (DocumentationUrl rule) (IsAuxilary rule)
     (DependencyCheck rule) (Dependency rule) (Metavars rule)
     (ParamParenting rule) (DetectPresence rule) (OmitParent rule).
End Rule.

Module LoadRulesResult.
Record t : Type := mk {
  BuiltInRules : gmap string Rule.t;
  Rules : gmap string Rule.t;
  CacheUsed : bool;
  BearerRulesVersion : string
}.
End LoadRulesResult.

Module Config.
Record t : Type := mk {
  Client : option Extern.API.t;
  Worker : WorkerOptions.t;
  Scan : Flag.ScanOptions.t;
  Report : Flag.ReportOptions.t;
  IgnoredFingerprints : gmap string Extern.IgnoredFingerprint;
  StaleIgnoredFingerprintIds : slice string;
  CloudIgnoresUsed : bool;
  Policies : gmap string Policy.t;
  Target : string;
  IgnoreFile : string;
  Rules : gmap string Rule.t;
  BuiltInRules : gmap string Rule.t;
  CacheUsed : bool;
  BearerRulesVersion : string;
  NoColor : bool;
  Debug : bool;
  LogLevel : string;
  DebugProfile : bool
}.

(** The zero value [Config{}]. *)
Definition zero : t :=
  mk None WorkerOptions.zero Flag.ScanOptions.zero Flag.ReportOptions.zero
     ∅ nil_slice false ∅ "" "" ∅ ∅ false "" false false "" false.
End Config.

(** *** Methods of [Rule] *)

Definition Rule_PolicyType (rule : Rule.t) : bool :=
  Rule.Type_ rule =? "risk".

Definition Rule_GetSeverity (rule : Rule.t) : string :=
  if Rule.Severity rule =? "" then LevelLow else Rule.Severity rule.

(** [rule.Languages[0]] is evaluated for the switch, and again in its
    [default] case. *)
Definition Rule_Language (rule : Rule.t) : outcome string :=
  if is_nil (Rule.Languages rule) then Val "secret"
  else
    match index (Rule.Languages rule) 0 with
    | Panic msg => Panic msg
    | Val tag =>
        if tag =? "java" then Val "Java"
        else if tag =? "javascript" then Val "JavaScript"
        else if tag =? "ruby" then Val "Ruby"
        else if tag =? "sql" then Val "SQL"
        else index (Rule.Languages rule) 0
    end.

Definition defaultWorkerOptions : WorkerOptions.t :=
  WorkerOptions.mk Timeout TimeoutFileMinimum TimeoutFileMaximum
    TimeoutFileBytesPerSecond TimeoutWorkerOnline FileSizeMaximum
    ExistingWorker.

(** *** YAML hooks *)

(** The pointers the hooks hand to the decoder's callback: [*string],
    [*rawRulePattern] and [*wrapper].  [rawRulePattern] and [wrapper] are
    [RulePattern] and [PatternFilter] without their methods. *)
Inductive target : Type :=
| to_string
| to_rawRulePattern
| to_wrapper.

Definition pointee (t : target) : Type :=
  match t with
  | to_string => string
  | to_rawRulePattern => RulePattern.t
  | to_wrapper => PatternFilter.t
  end.

(** [unmarshal func(interface{}) error]: from the value behind the pointer to
    the value the decoder leaves there, or the error it returns. *)
Definition unmarshal_func : Type := forall t : target, pointee t -> result (pointee t).

(** [func (rulePattern *RulePattern) UnmarshalYAML]: the receiver as the hook
    leaves it, or the hook's error. *)
Definition RulePattern_UnmarshalYAML
    (rulePattern : RulePattern.t) (unmarshal : unmarshal_func) : result RulePattern.t :=
  (* Try to parse as a string *)
  match unmarshal to_string "" with
  | Ok pattern => Ok (RulePattern.set_Pattern pattern rulePattern)
  | Err _ =>
      (* Wasn't a string so it must be the structured format *)
      unmarshal to_rawRulePattern rulePattern
  end.

(** [func (filter *PatternFilter) UnmarshalYAML].  The receiver is overwritten
    whole by [*filter = PatternFilter(wrapped)]. *)
Definition PatternFilter_UnmarshalYAML
    (filter : PatternFilter.t) (unmarshal : unmarshal_func) : result PatternFilter.t :=
  match unmarshal to_wrapper PatternFilter.zero with
  | Err err => Err err
  | Ok wrapped =>
      let filter := wrapped in
      (* Default Scope to "contains" and maintain backwards compatibility with
         rules using the `contains` flag *)
      let filter :=
        if negb (PatternFilter.Detection filter =? "") then
          let filter :=
            match PatternFilter.Contains filter with
            | Some contains =>
                if negb contains then PatternFilter.set_Scope CURSOR_SCOPE filter
                else filter
            | None => filter
            end in
          if PatternFilter.Scope filter =? "" then
            PatternFilter.set_Scope NESTED_SCOPE filter
          else filter
        else filter in
      Ok filter
  end.

(** *** Loading the configuration *)

Section FromOptions.

(** The embedded [policies.yml] as [yaml.Unmarshal(defaultPolicies, &policy)]
    decodes it. *)
Variable defaultPolicies : result (list Policy.t).
(** [policiesFs.ReadFile], over the embedded [policies/*]. *)
Variable policiesFs_ReadFile : string -> result string.
(** [loadRules], declared in a file of the package that is not among the
    sources. *)
Variable loadRules :
  slice string -> Flag.RuleOptions.t -> option Extern.VersionMeta -> bool ->
  result LoadRulesResult.t.
(** [ignore.GetIgnoredFingerprints], by its first and last results. *)
Variable ignore_GetIgnoredFingerprints :
  string -> string -> result (gmap string Extern.IgnoredFingerprint).

(** [output.Fatal] ends the process: [DefaultPolicies] does not return then.
    The pointers of the decoded [[]*Policy] are taken to be non-nil, and a
    policy is kept by value: no two entries of the map share a pointer. *)
Definition DefaultPolicies : outcome (gmap string Policy.t) :=
  match defaultPolicies with
  | Err err => Panic ("failed to unmarshal policy file " ++ err)
  | Ok policy =>
      Val (foldl (fun policies policy => <[Policy.Type_ policy := policy]> policies)
                 ∅ policy)
  end.

(** The body of the loop over [policy.Modules]. *)
Definition expandModule (module : PolicyModule.t) : result PolicyModule.t :=
  if negb (PolicyModule.Path module =? "") then
    match policiesFs_ReadFile (PolicyModule.Path module) with
    | Err err => Err err
    | Ok content => Ok (PolicyModule.set_Content content module)
    end
  else Ok module.

(** The loop over [policy.Modules]: the modules are reached through
    pointers, so the policy sees their new content. *)
Definition expandPolicy (policy : Policy.t) : result Policy.t :=
  match traverse_slice expandModule (Policy.Modules policy) with
  | Err err => Err err
  | Ok modules => Ok (Policy.set_Modules modules policy)
  end.

(** The loop over [policies].  Go ranges over a map in no fixed order; the
    order here is that of [map_to_list]. *)
Definition expandPolicies (policies : gmap string Policy.t) : result (gmap string Policy.t) :=
  match traverse (fun entry : string * Policy.t =>
                    match expandPolicy entry.2 with
                    | Err err => Err err
                    | Ok policy => Ok (entry.1, policy)
                    end)
                 (map_to_list policies) with
  | Err err => Err err
  | Ok entries => Ok (list_to_map entries)
  end.

Definition FromOptions (opts : Flag.Options.t) (versionMeta : option Extern.VersionMeta)
    : outcome (Config.t * option error) :=
  match DefaultPolicies with
  | Panic msg => Panic msg
  | Val policies =>
  let workerOptions := defaultWorkerOptions in
  match loadRules (Flag.Options.ExternalRuleDir opts) (Flag.Options.RuleOptions opts)
                  versionMeta
                  (Flag.ScanOptions.Force (Flag.Options.ScanOptions opts)) with
  | Err err => Val (Config.zero, Some err)
  | Ok result =>
  match expandPolicies policies with
  | Err err => Val (Config.zero, Some err)
  | Ok policies =>
  match ignore_GetIgnoredFingerprints
          (Flag.GeneralOptions.IgnoreFile (Flag.Options.GeneralOptions opts))
          (Flag.ScanOptions.Target (Flag.Options.ScanOptions opts)) with
  | Err err => Val (Config.zero, Some err)
  | Ok ignoredFingerprints =>
  let config :=
    Config.mk
      (Flag.Options.Client opts)
      workerOptions
      (Flag.Options.ScanOptions opts)
      (Flag.Options.ReportOptions opts)
      ignoredFingerprints
      nil_slice
      false
      policies
      ""
      (Flag.GeneralOptions.IgnoreFile (Flag.Options.GeneralOptions opts))
      (LoadRulesResult.Rules result)
      (LoadRulesResult.BuiltInRules result)
      (LoadRulesResult.CacheUsed result)
      (LoadRulesResult.BearerRulesVersion result)
      (Flag.GeneralOptions.NoColor (Flag.Options.GeneralOptions opts)
       || negb (Flag.ReportOptions.Output (Flag.Options.ReportOptions opts) =? ""))
      (Flag.GeneralOptions.Debug (Flag.Options.GeneralOptions opts))
      (Flag.GeneralOptions.LogLevel (Flag.Options.GeneralOptions opts))
      (Flag.GeneralOptions.DebugProfile (Flag.Options.GeneralOptions opts)) in
  if negb (Flag.ScanOptions.DiffBaseBranch (Config.Scan config) =? "") then
    if negb (Flag.ReportOptions.Report (Config.Report config) =? Flag.ReportSecurity) then
      Val (Config.zero,
           Some "diff base branch is only supported for the security report")
    else
      match Config.Client config with
      | Some _ =>
          Val (Config.zero,
               Some "diff base branch is not supported when using an api key")
      | None => Val (config, None)
      end
  else Val (config, None)
  end end end end.

End FromOptions.

(** [module'] is [module] with the text of its file inlined: a module with a
    [path] has the content of the embedded file at that path, a module
    without one is as it was. *)
Definition inlined (ReadFile : string -> result string)
    (module module' : PolicyModule.t) : Prop :=
  PolicyModule.Path module' = PolicyModule.Path module /\
  PolicyModule.Name module' = PolicyModule.Name module /\
  if PolicyModule.Path module =? "" then
    PolicyModule.Content module' = PolicyModule.Content module
  else ReadFile (PolicyModule.Path module) = Ok (PolicyModule.Content module').

(** The file of every module of [policies] that has a [path] can be read. *)
Definition readable (ReadFile : string -> result string)
    (policies : gmap string Policy.t) : Prop :=
  forall key policy module,
    policies !! key = Some policy ->
    module ∈ elems (Policy.Modules policy) ->
    PolicyModule.Path module <> "" ->
    is_ok (ReadFile (PolicyModule.Path module)) = true.

End Settings.

(** ** The YAML decoder behind the hooks *)

(** Modelled from the spec: the decoder of [gopkg.in/yaml.v3] that calls the
    hooks and serves their [unmarshal] callback.  Neither the library nor the
    [loadRules] that sets the decoder up is among the sources.  The spec has
    unknown keys rejected, a rule pattern given as a bare string or as a
    structured object, and [contains] given as a boolean.  [knownFields] is
    the library's switch between that strict reading and its lenient default,
    [compiles] says which texts [Regexp] accepts. *)
Module Decoder.

Import Yaml Settings.

Record config : Type := mk_config {
  knownFields : bool;
  compiles : string -> bool
}.

(** No key occurs twice. *)
Fixpoint unique (ks : list string) : bool :=
  match ks with
  | [] => true
  | k :: ks' => negb (existsb (String.eqb k) ks') && unique ks'
  end.

(** [k] is one of the YAML names [names] of a struct's fields. *)
Definition known (names : list string) (k : string) : bool :=
  existsb (String.eqb k) names.

Definition RulePattern_fields : list string := ["pattern"; "focus"; "filters"].

Definition RuleReferenceImport_fields : list string := ["variable"; "as"].

Definition PatternFilter_fields : list string :=
  ["not"; "either"; "variable"; "detection"; "scope"; "filters"; "imports";
   "contains"; "regex"; "values"; "length_less_than"; "less_than";
   "less_than_or_equal"; "greater_than"; "greater_than_or_equal";
   "string_regex"; "filename_regex"].

(** A node into a [string]: any scalar gives its text, a null leaves the
    string as it is. *)
Definition scalar_string (n : Node) (out : string) : result string :=
  match n with
  | Scalar _ RNull => Ok out
  | Scalar value _ => Ok value
  | Mapping _ => Err "cannot unmarshal !!map into string"
  | Sequence _ => Err "cannot unmarshal !!seq into string"
  end.

(** A node into a [*bool]. *)
Definition scalar_bool (n : Node) : result (option bool) :=
  match n with
  | Scalar _ RNull => Ok None
  | Scalar _ (RBool b) => Ok (Some b)
  | Scalar value RStr =>
      if existsb (String.eqb value) ["y"; "Y"; "yes"; "Yes"; "YES"; "on"; "On"; "ON"]
      then Ok (Some true)
      else if existsb (String.eqb value) ["n"; "N"; "no"; "No"; "NO"; "off"; "Off"; "OFF"]
      then Ok (Some false)
      else Err "cannot unmarshal !!str into bool"
  | _ => Err "cannot unmarshal into bool"
  end.

(** A node into a [*int]. *)
Definition scalar_int (n : Node) : result (option Z) :=
  match n with
  | Scalar _ RNull => Ok None
  | Scalar _ (RInt z) => Ok (Some z)
  | _ => Err "cannot unmarshal into int"
  end.

(** A node into a [*Regexp]. *)
Definition scalar_regexp (cfg : config) (n : Node) : result (option Regexp) :=
  match n with
  | Scalar _ RNull => Ok None
  | Scalar value _ =>
      if compiles cfg value then Ok (Some value) else Err "error parsing regexp"
  | _ => Err "cannot unmarshal into string"
  end.

(** A node into a slice whose elements are not pointers: a sequence gives a
    new slice of its elements, the null ones left out; a null gives [nil]. *)
Definition sequence {A} (element : Node -> result A) (n : Node) : result (slice A) :=
  match n with
  | Sequence items =>
      match
        (fix go (items : list Node) : result (list A) :=
           match items with
           | [] => Ok []
           | item :: items' =>
               if is_null item then go items'
               else
                 match element item with
                 | Err e => Err e
                 | Ok a =>
                     match go items' with
                     | Err e => Err e
                     | Ok rest => Ok (a :: rest)
                     end
                 end
           end) items
      with
      | Err e => Err e
      | Ok l => Ok (mk_slice l)
      end
  | Scalar _ RNull => Ok nil_slice
  | _ => Err "cannot unmarshal into slice"
  end.

(** The entry of a mapping under [key], decoded by [decode]; the field keeps
    [out] when the mapping has no such key. *)
Definition field {A} (key : string) (decode : Node -> A -> result A)
    : list (string * Node) -> A -> result A :=
  fix go (content : list (string * Node)) (out : A) : result A :=
    match content with
    | [] => Ok out
    | (k, v) :: content' => if k =? key then decode v out else go content' out
    end.

(** The checks on the keys of a mapping that is decoded into a struct. *)
Definition check_keys (cfg : config) (names : list string) (content : list (string * Node))
    : result unit :=
  if negb (unique (keys content)) then Err "mapping key already defined"
  else if knownFields cfg && negb (forallb (known names) (keys content))
  then Err "field not found in type"
  else Ok tt.

(** A node into a [RuleReferenceImport]. *)
Definition import (cfg : config) (n : Node) : result RuleReferenceImport.t :=
  match n with
  | Mapping content =>
      _ <- check_keys cfg RuleReferenceImport_fields content;;
      variable <- field "variable" scalar_string content "";;
      as_ <- field "as" scalar_string content "";;
      Ok (RuleReferenceImport.mk variable as_)
  | _ => Err "cannot unmarshal into settings.RuleReferenceImport"
  end.

(** A mapping into a [rawRulePattern], field by field; [filter] decodes a
    node at type [PatternFilter]. *)
Definition rawRulePattern_mapping (cfg : config) (filter : Node -> result PatternFilter.t)
    (content : list (string * Node)) (out : RulePattern.t) : result RulePattern.t :=
  _ <- check_keys cfg RulePattern_fields content;;
  pattern <- field "pattern" scalar_string content (RulePattern.Pattern out);;
  focus <- field "focus" scalar_string content (RulePattern.Focus out);;
  filters <- field "filters" (fun v _ => sequence filter v) content
               (RulePattern.Filters out);;
  Ok (RulePattern.mk pattern focus filters).

(** A node into a [*PatternFilter]. *)
Definition pointer (filter : Node -> result PatternFilter.t) (v : Node)
    : result (option PatternFilter.t) :=
  if is_null v then Ok None
  else
    match filter v with
    | Err e => Err e
    | Ok f => Ok (Some f)
    end.

(** A mapping into a [wrapper], field by field. *)
Definition wrapper_mapping (cfg : config) (filter : Node -> result PatternFilter.t)
    (content : list (string * Node)) (out : PatternFilter.t) : result PatternFilter.t :=
  _ <- check_keys cfg PatternFilter_fields content;;
  not <- field "not" (fun v _ => pointer filter v) content (PatternFilter.Not out);;
  either <- field "either" (fun v _ => sequence filter v) content
              (PatternFilter.Either out);;
  variable <- field "variable" scalar_string content (PatternFilter.Variable_ out);;
  detection <- field "detection" scalar_string content (PatternFilter.Detection out);;
  scope <- field "scope" scalar_string content (PatternFilter.Scope out);;
  filters <- field "filters" (fun v _ => sequence filter v) content
               (PatternFilter.Filters out);;
  imports <- field "imports" (fun v _ => sequence (import cfg) v) content
               (PatternFilter.Imports out);;
  contains <- field "contains" (fun v _ => scalar_bool v) content
                (PatternFilter.Contains out);;
  regex <- field "regex" (fun v _ => scalar_regexp cfg v) content
             (PatternFilter.Regex out);;
  values <- field "values"
              (fun v _ => sequence (fun item => scalar_string item "") v)
              content (PatternFilter.Values out);;
  lengthLessThan <- field "length_less_than" (fun v _ => scalar_int v) content
                      (PatternFilter.LengthLessThan out);;
  lessThan <- field "less_than" (fun v _ => scalar_int v) content
                (PatternFilter.LessThan out);;
  lessThanOrEqual <- field "less_than_or_equal" (fun v _ => scalar_int v)
                       content (PatternFilter.LessThanOrEqual out);;
  greaterThan <- field "greater_than" (fun v _ => scalar_int v) content
                   (PatternFilter.GreaterThan out);;
  greaterThanOrEqual <- field "greater_than_or_equal" (fun v _ => scalar_int v)
                          content (PatternFilter.GreaterThanOrEqual out);;
  stringRegex <- field "string_regex" (fun v _ => scalar_regexp cfg v) content
                   (PatternFilter.StringRegex out);;
  filenameRegex <- field "filename_regex" (fun v _ => scalar_regexp cfg v)
                     content (PatternFilter.FilenameRegex out);;
  Ok (PatternFilter.mk not either variable detection scope filters imports
        contains regex values lengthLessThan lessThan lessThanOrEqual
        greaterThan greaterThanOrEqual stringRegex filenameRegex).

(** [d.unmarshal(n, out)] at the types the hooks ask for.  A [PatternFilter]
    inside a node is decoded by its hook, on a fresh zero value, with the
    callback for that node.  A null leaves a struct as it is; any other
    scalar and a sequence are type errors for a struct. *)
Fixpoint unmarshal (cfg : config) (n : Node) (t : target) {struct n}
    : pointee t -> result (pointee t) :=
  let filter (v : Node) : result PatternFilter.t :=
    PatternFilter_UnmarshalYAML PatternFilter.zero (unmarshal cfg v) in
  match t as t0 return pointee t0 -> result (pointee t0) with
  | to_string => fun out => scalar_string n out
  | to_rawRulePattern => fun out =>
      match n with
      | Mapping content => rawRulePattern_mapping cfg filter content out
      | Scalar _ RNull => Ok out
      | _ => Err "cannot unmarshal into settings.rawRulePattern"
      end
  | to_wrapper => fun out =>
      match n with
      | Mapping content => wrapper_mapping cfg filter content out
      | Scalar _ RNull => Ok out
      | _ => Err "cannot unmarshal into settings.wrapper"
      end
  end.

(** The decoder on a place of type [RulePattern] (an element of [patterns]):
    the hook is called on a fresh zero value. *)
Definition decode_RulePattern (cfg : config) (n : Node) : result RulePattern.t :=
  RulePattern_UnmarshalYAML RulePattern.zero (unmarshal cfg n).

(** The decoder on a place of type [PatternFilter]. *)
Definition decode_PatternFilter (cfg : config) (n : Node) : result PatternFilter.t :=
  PatternFilter_UnmarshalYAML PatternFilter.zero (unmarshal cfg n).

Definition strict : config := mk_config true (fun _ => true).
Definition lenient : config := mk_config false (fun _ => true).

(** [unknown_key t n]: decoded at the type [t], the node [n] holds a mapping
    with a key that is no field of the struct the mapping is decoded into;
    the mapping is [n] itself or one of the filters and imports inside it. *)
Inductive unknown_key : target -> Node -> Prop :=
| unknown_in_pattern content k :
    k ∈ keys content -> known RulePattern_fields k = false ->
    unknown_key to_rawRulePattern (Mapping content)
| unknown_in_pattern_filters content items item :
    ("filters", Sequence items) ∈ content -> item ∈ items ->
    unknown_key to_wrapper item ->
    unknown_key to_rawRulePattern (Mapping content)
| unknown_in_filter content k :
    k ∈ keys content -> known PatternFilter_fields k = false ->
    unknown_key to_wrapper (Mapping content)
| unknown_in_not content v :
    ("not", v) ∈ content -> unknown_key to_wrapper v ->
    unknown_key to_wrapper (Mapping content)
| unknown_in_either content items item :
    ("either", Sequence items) ∈ content -> item ∈ items ->
    unknown_key to_wrapper item ->
    unknown_key to_wrapper (Mapping content)
| unknown_in_filters content items item :
    ("filters", Sequence items) ∈ content -> item ∈ items ->
    unknown_key to_wrapper item ->
    unknown_key to_wrapper (Mapping content)
| unknown_in_imports content items icontent k :
    ("imports", Sequence items) ∈ content -> Mapping icontent ∈ items ->
    k ∈ keys icontent -> known RuleReferenceImport_fields k = false ->
    unknown_key to_wrapper (Mapping content).

End Decoder.

(** ** Package [output] *)

Module Output.

Import Settings.

(** A value of type [interface{}] among the detections.  A Go map is a
    reference: [VMap ref] names an object of the store, and two values with
    the same [ref] are the same map. *)
Inductive value : Type :=
| VString (s : string)
| VMap (ref : nat)
| VOther (token : nat).

Global Instance value_eq_dec : EqDecision value.
Proof. solve_decision. Defined.

(** The [map[string]interface{}] objects, by reference. *)
Abbreviation objects := (gmap nat (gmap string value)).

(** Modelled from the spec: [types.ReportData] and [globaltypes.Report], whose
    declarations are not among the sources (the spec leaves the report
    formatters out of scope).  The report data is given by the two fields the
    code of this package reads and writes, and a token for the rest. *)
Module ReportData.
Record t : Type := mk {
  Detectors : slice value;
  SendToCloud : bool;
  Rest : nat
}.
End ReportData.

Inductive Report : Type := report (token : nat).

(** What a [*types.ReportData] gives access to: the struct behind the pointer
    and the maps reachable from it. *)
Record store : Type := mk_store {
  data : ReportData.t;
  heap : objects
}.

Section GetDataflow.

(** [detectors.AddReportData] and [dataflow.AddReportData], of packages that
    are not among the sources: each works on the report data through the
    pointer and returns an [error]. *)
Variable detectors_AddReportData : store -> Report -> Config.t -> store * option error.
Variable dataflow_AddReportData : store -> Config.t -> bool -> store * option error.
(** [uuid.NewString]: the strings it returns during one run, in call order. *)
Variable uuid_NewString : nat -> string.

(** [detection.(map[string]interface{})["id"] = uuid.NewString()], as the
    [calls]-th call of the generator: the type assertion panics on anything
    but a map, the assignment on a map that is [nil]. *)
Definition setId (calls : nat) (detection : value) (h : objects) : outcome objects :=
  match detection with
  | VMap ref =>
      match h !! ref with
      | Some m => Val (<[ref := <["id" := VString (uuid_NewString calls)]> m]> h)
      | None => Panic "assignment to entry in nil map"
      end
  | _ => Panic "interface conversion: interface {} is not map[string]interface {}"
  end.

(** [for _, detection := range reportData.Detectors { ... }] *)
Fixpoint setIds (calls : nat) (detections : list value) (h : objects) : outcome objects :=
  match detections with
  | [] => Val h
  | detection :: detections' =>
      match setId calls detection h with
      | Panic msg => Panic msg
      | Val h' => setIds (S calls) detections' h'
      end
  end.

Definition GetDataflow (reportData : store) (report : Report) (config : Config.t)
    (isInternal : bool) : outcome (store * option error) :=
  let '(reportData, err) :=
    if is_nil (ReportData.Detectors (data reportData)) then
      detectors_AddReportData reportData report config
    else (reportData, None) in
  match err with
  | Some err => Val (reportData, Some err)
  | None =>
      match setIds 0 (elems (ReportData.Detectors (data reportData)))
                   (heap reportData) with
      | Panic msg => Panic msg
      | Val h =>
          Val (dataflow_AddReportData
                 (mk_store (data reportData) h) config isInternal)
      end
  end.

End GetDataflow.

(** A detection without its ["id"]. *)
Definition without_id (m : gmap string value) : gmap string value := delete "id" m.

(** Heaps that differ at most in the ["id"] entries of their maps. *)
Definition heaps_agree (h1 h2 : objects) : Prop :=
  forall ref, without_id <$> (h1 !! ref) = without_id <$> (h2 !! ref).

(** Two stores that differ at most in the ["id"] entries of their maps. *)
Definition agree (s1 s2 : store) : Prop :=
  data s1 = data s2 /\ heaps_agree (heap s1) (heap s2).

(** Two runs that end the same way, on stores that [agree]. *)
Definition same_up_to_ids (o1 o2 : outcome (store * option error)) : Prop :=
  match o1, o2 with
  | Val (s1, e1), Val (s2, e2) => e1 = e2 /\ agree s1 s2
  | Panic m1, Panic m2 => m1 = m2
  | _, _ => False
  end.

(** The ["id"] of the detection at [ref]. *)
Definition id_of (s : store) (ref : nat) : option value :=
  heap s !! ref ≫= (.!! "id").

(** The call of [uuid.NewString] whose string [detection] is left with when
    the loop of [GetDataflow] runs through [detections], the first of them at
    call number [calls]: the one at the last position where [detection]
    stands, for later assignments overwrite earlier ones. *)
Fixpoint last_call (calls : nat) (detection : value) (detections : list value)
    : option nat :=
  match detections with
  | [] => None
  | d :: detections' =>
      match last_call (S calls) detection detections' with
      | Some call => Some call
      | None => if decide (d = detection) then Some calls else None
      end
  end.


End Output.

(** ** Concrete inputs *)

Module Examples.

Import Yaml Settings.

(** A rule with [languages: []]: the list is empty and not [nil]. *)
Definition rule_empty_languages : Rule.t :=
  Rule.set_Languages (mk_slice []) Rule.zero.

Definition rule_ruby : Rule.t :=
  Rule.set_Severity "high" (Rule.set_Languages (mk_slice ["ruby"; "java"]) Rule.zero).

Definition rule_php : Rule.t :=
  Rule.set_Languages (mk_slice ["php"]) Rule.zero.

(** An embedded [policies.yml] with one policy of two modules, the first
    kept in the file [policies/common.rego]. *)
Definition policies_yml : list Policy.t :=
  [Policy.mk "privacy_report" "data.bearer.privacy_report.items"
     (mk_slice [PolicyModule.mk "policies/common.rego" "bearer.common" "";
                PolicyModule.mk "" "bearer.inline" "package bearer.inline"])].

(** The same with a module whose file is not embedded. *)
Definition policies_yml_missing : list Policy.t :=
  [Policy.mk "privacy_report" "data.bearer.privacy_report.items"
     (mk_slice [PolicyModule.mk "policies/common.rego" "bearer.common" "";
                PolicyModule.mk "policies/gone.rego" "bearer.gone" ""])].

Definition policiesFs (path : string) : result string :=
  if path =? "policies/common.rego" then Ok "package bearer.common"
  else Err "open: file does not exist".

Definition loadRules_ok (externalRuleDir : slice string) (options : Flag.RuleOptions.t)
    (versionMeta : option Extern.VersionMeta) (force : bool)
    : result LoadRulesResult.t :=
  Ok (LoadRulesResult.mk ∅ ∅ false "v1").

Definition no_ignores (ignoreFile target : string)
    : result (gmap string Extern.IgnoredFingerprint) :=
  Ok ∅.

(** [bearer scan . --report <report> --diff-base-branch <diff>], with or
    without an API client. *)
Definition options (client : option Extern.API.t) (report diff : string) : Flag.Options.t :=
  Flag.Options.mk client nil_slice
    (Flag.ScanOptions.mk false "." diff false)
    (Flag.RuleOptions.mk false)
    (Flag.ReportOptions.mk "" report "")
    (Flag.GeneralOptions.mk "bearer.ignore" false false false "info").

(** [{variable: X, contains: false}]: the legacy flag on a filter that names
    no detection. *)
Definition yaml_contains_without_detection : Node :=
  Mapping [("variable", str "X"); ("contains", boolean false)].

(** [{variable: X, detection: aux, contains: true, scope: cursor}] *)
Definition yaml_contains_with_scope : Node :=
  Mapping [("variable", str "X"); ("detection", str "aux");
           ("contains", boolean true); ("scope", str "cursor")].

(** [{variable: X, detection: aux, contains: false, scope: result}] *)
Definition yaml_legacy_cursor : Node :=
  Mapping [("variable", str "X"); ("detection", str "aux");
           ("contains", boolean false); ("scope", str "result")].

(** [{variable: A, detection: Aux}]: a reference with neither [scope] nor
    [contains]. *)
Definition yaml_reference : Node :=
  Mapping [("variable", str "A"); ("detection", str "Aux")].

(** The pattern [sleep($N)] in its short form. *)
Definition yaml_pattern_string : Node := str "sleep($N)".

(** [{pattern: "sleep($N)", focus: N, filters: [{variable: N, less_than: 10}]}] *)
Definition yaml_pattern_struct : Node :=
  Mapping [("pattern", str "sleep($N)"); ("focus", str "N");
           ("filters",
            Sequence [Mapping [("variable", str "N");
                               ("less_than", Scalar "10" (RInt 10))]])].

(** A structured pattern with a filter that carries the undeclared key
    [detections]. *)
Definition yaml_pattern_unknown_key : Node :=
  Mapping [("pattern", str "Tracer.in_span($_, attributes: $A)");
           ("filters",
            Sequence [Mapping [("variable", str "A");
                               ("detections", str "Aux")]])].

(** Report data with two detections, each a map of its own. *)
Definition two_detections : Output.store :=
  Output.mk_store
    (Output.ReportData.mk (mk_slice [Output.VMap 0; Output.VMap 1]) false 0)
    (<[0 := {["type" := Output.VString "custom_classified"]}]>
       (<[1 := {["type" := Output.VString "schema_classified";
                 "id" := Output.VString "stale"]}]> ∅)).

(** A [dataflow.AddReportData] that leaves the report data as it is. *)
Definition dataflow_unchanged (reportData : Output.store) (config : Config.t)
    (isInternal : bool) : Output.store * option error :=
  (reportData, None).

(** A [detectors.AddReportData] that finds no detection. *)
Definition detectors_none (reportData : Output.store) (report : Output.Report)
    (config : Config.t) : Output.store * option error :=
  (Output.mk_store
     (Output.ReportData.mk (mk_slice [])
        (Output.ReportData.SendToCloud (Output.data reportData))
        (Output.ReportData.Rest (Output.data reportData)))
     (Output.heap reportData),
   None).

(** The identifiers that [uuid.NewString] hands out during two runs. *)
Definition uuids_run1 (calls : nat) : string :=
  match calls with
  | 0 => "6ba7b810-9dad-41d1-80b4-00c04fd430c8"
  | _ => "6ba7b811-9dad-41d1-80b4-00c04fd430c8"
  end.

Definition uuids_run2 (calls : nat) : string :=
  match calls with
  | 0 => "f47ac10b-58cc-4372-a567-0e02b2c3d479"
  | _ => "f47ac10c-58cc-4372-a567-0e02b2c3d479"
  end.

End Examples.

(** ** Package [settings]: rego modules *)

Module Rego.

Import Settings.

(** Modelled from the spec: the struct [rego.Module], of a package that is not
    among the sources (the spec leaves the policy evaluator out of scope);
    it is given by the two fields that [ToRegoModules] fills. *)
Module RegoModule.
Record t : Type := mk {
  Name : string;
  Content : string
}.
End RegoModule.

(** [func (modules Modules) ToRegoModules() (output []rego.Module)]: the
    named result starts as [nil] and grows by [append]. *)
Definition ToRegoModules (modules : Modules) : slice RegoModule.t :=
  foldl (fun output module =>
           append output
             (RegoModule.mk (PolicyModule.Name module) (PolicyModule.Content module)))
        nil_slice (elems modules).

Section Processors.

(** [processorsFs.ReadFile], over the embedded [processors/*]. *)
Variable processorsFs_ReadFile : string -> result string.

Definition ProcessorRegoModuleText (processorName : string) : result string :=
  let processorPath := ("processors/" ++ processorName ++ ".rego")%string in
  match processorsFs_ReadFile processorPath with
  | Err err => Err err
  | Ok data => Ok data
  end.

End Processors.

End Rego.

(** ** Package [get]: languages by name *)

Module LanguageGet.

Section Get.

(** [types.Language] and [ruby.Get()], of packages that are not among the
    sources. *)
Variable Language : Type.
Variable ruby_Get : Language.

Definition Get (name : string) : result Language :=
  if name =? "ruby" then Ok ruby_Get
  else Err ("unsupported language '" ++ name ++ "'")%string.

End Get.

End LanguageGet.

(** ** Package [output]: report data and its formatting *)

Module Pipeline.

Import Settings Output.

(** Modelled from the spec: the report kinds of package [flag] other than
    [ReportSecurity], which the spec leaves out of scope with the CLI flags;
    Go requires the cases of one [switch] to be different constants. *)
Definition ReportDetectors : string := "detectors".
Definition ReportDataFlow : string := "dataflow".
Definition ReportPrivacy : string := "privacy".
Definition ReportSaaS : string := "saas".
Definition ReportStats : string := "stats".

(** Modelled from the spec: [basebranchfindings.Findings] and [gocloc.Result],
    of packages that are not among the sources; they pass through as
    tokens.  A [time.Time] is a [Z]. *)
Inductive Findings : Type := findings (token : nat).
Inductive GoclocResult : Type := gocloc_result (token : nat).

(** The method [Format] of a [types.GenericFormatter]. *)
Definition formatter : Type := string -> string * option error.

(** A double quote and a line feed. *)
Definition quote : string := String (Ascii.ascii_of_nat 34) "".
Definition nl : string := String (Ascii.ascii_of_nat 10) "".

(** [fmt.Errorf(`--report flag "%s" is not supported`, report)] *)
Definition not_supported (report : string) : error :=
  ("--report flag " ++ quote ++ report ++ quote ++ " is not supported")%string.

(** [fmt.Errorf(`--report flag "%s" does not support --format flag "%s"`, ...)] *)
Definition format_not_supported (report format : string) : error :=
  ("--report flag " ++ quote ++ report ++ quote ++
   " does not support --format flag " ++ quote ++ format ++ quote)%string.

(** [&types.ReportData{}]: nothing is reachable from it yet. *)
Definition empty_data : store := mk_store (ReportData.mk nil_slice false 0) ∅.

(** [data.SendToCloud = true] *)
Definition set_SendToCloud (data : store) : store :=
  mk_store
    (ReportData.mk (ReportData.Detectors (Output.data data)) true
       (ReportData.Rest (Output.data data)))
    (heap data).

Section GetData.

(** The steps of the packages [detectors], [dataflow], [security], [saas],
    [privacy] and [stats], which are not among the sources: each works on
    the report data through the pointer.  [stats.AddReportData] is given the
    report for its field [Inputgocloc]. *)
Variable detectors_AddReportData : store -> Report -> Config.t -> store * option error.
Variable dataflow_AddReportData : store -> Config.t -> bool -> store * option error.
Variable uuid_NewString : nat -> string.
Variable security_AddReportData :
  store -> Config.t -> option Findings -> store * option error.
Variable saas_GetReport : store -> Config.t -> bool -> store * option error.
Variable privacy_AddReportData : store -> Config.t -> store * option error.
Variable stats_AddReportData : store -> Report -> Config.t -> store * option error.
Variable saas_SendReport : Config.t -> store -> store.

(** [config.Client != nil && config.Client.Error == nil] *)
Definition client_ready (config : Config.t) : bool :=
  match Config.Client config with
  | Some client =>
      match Extern.API.Error client with
      | None => true
      | Some _ => false
      end
  | None => false
  end.

(** The end of [GetData], after the [switch]. *)
Definition upload (attemptCloudUpload : bool) (config : Config.t)
    (data : store) (err : option error) : outcome (option store * option error) :=
  if attemptCloudUpload && client_ready config then
    (* send SaaS report to Cloud *)
    let data := set_SendToCloud data in
    let data := saas_SendReport config data in
    Val (Some data, err)
  else Val (Some data, err).

Definition GetData (report : Report) (config : Config.t)
    (baseBranchFindings : option Findings) : outcome (option store * option error) :=
  let data := empty_data in
  (* add detectors *)
  let '(data, err) := detectors_AddReportData data report config in
  let kind := Flag.ReportOptions.Report (Config.Report config) in
  if (kind =? ReportDetectors) || (match err with Some _ => true | None => false end)
  then Val (Some data, err)
  else
    (* add dataflow to data *)
    match GetDataflow detectors_AddReportData dataflow_AddReportData uuid_NewString
            data report config (negb (kind =? ReportDataFlow)) with
    | Panic msg => Panic msg
    | Val (data, Some err) => Val (Some data, Some err)
    | Val (data, None) =>
        (* add report-specific items *)
        if kind =? ReportDataFlow then Val (Some data, None)
        else if kind =? Flag.ReportSecurity then
          let '(data, err) := security_AddReportData data config baseBranchFindings in
          upload true config data err
        else if kind =? ReportSaaS then
          match security_AddReportData data config baseBranchFindings with
          | (_, Some err) => Val (None, Some err)
          | (data, None) =>
              let '(data, err) := saas_GetReport data config false in
              upload true config data err
          end
        else if kind =? ReportPrivacy then
          let '(data, err) := privacy_AddReportData data config in
          upload false config data err
        else if kind =? ReportStats then
          let '(data, err) := stats_AddReportData data report config in
          upload false config data err
        else Val (None, Some (not_supported kind))
    end.

End GetData.

Section FormatOutput.

(** The [NewFormatter] of each report package. *)
Variable detectors_NewFormatter : store -> Config.t -> formatter.
Variable dataflow_NewFormatter : store -> Config.t -> formatter.
Variable security_NewFormatter : store -> Config.t -> option GoclocResult -> Z -> Z -> formatter.
Variable privacy_NewFormatter : store -> Config.t -> formatter.
Variable saas_NewFormatter : store -> Config.t -> formatter.
Variable stats_NewFormatter : store -> Config.t -> formatter.

(** The [switch] of [FormatOutput]; [None] is its [default] case. *)
Definition selectFormatter (reportData : store) (config : Config.t)
    (goclocResult : option GoclocResult) (startTime endTime : Z) : option formatter :=
  let kind := Flag.ReportOptions.Report (Config.Report config) in
  if kind =? ReportDetectors then Some (detectors_NewFormatter reportData config)
  else if kind =? ReportDataFlow then Some (dataflow_NewFormatter reportData config)
  else if kind =? Flag.ReportSecurity then
    Some (security_NewFormatter reportData config goclocResult startTime endTime)
  else if kind =? ReportPrivacy then Some (privacy_NewFormatter reportData config)
  else if kind =? ReportSaaS then Some (saas_NewFormatter reportData config)
  else if kind =? ReportStats then Some (stats_NewFormatter reportData config)
  else None.

Definition cached_message : string :=
  (nl ++ nl ++
   "Cached data used (no code changes detected). Unexpected? Use --force to force a re-scan.")%string.

Definition sent_message : string :=
  (nl ++ nl ++ "Data successfully sent to Bearer Cloud.")%string.

(** [fmt.Sprintf("\n\nFailed to send data to Bearer Cloud. %s ", *config.Client.Error)] *)
Definition failed_message (clientError : string) : string :=
  (nl ++ nl ++ "Failed to send data to Bearer Cloud. " ++ clientError ++ " ")%string.

Definition FormatOutput (reportData : store) (config : Config.t) (cacheUsed : bool)
    (goclocResult : option GoclocResult) (startTime endTime : Z)
    : outcome (string * option error) :=
  let kind := Flag.ReportOptions.Report (Config.Report config) in
  match selectFormatter reportData config goclocResult startTime endTime with
  | None => Val ("", Some (not_supported kind))
  | Some formatter =>
      match formatter (Flag.ReportOptions.Format (Config.Report config)) with
      | (formatStr, Some err) => Val (formatStr, Some err)
      | (formatStr, None) =>
          if formatStr =? "" then
            Val ("", Some (format_not_supported kind
                             (Flag.ReportOptions.Format (Config.Report config))))
          else if negb (Flag.ScanOptions.Quiet (Config.Scan config))
                  && (ReportData.SendToCloud (data reportData) || cacheUsed) then
            (* add cached data warning message *)
            let formatStr :=
              if cacheUsed then (formatStr ++ cached_message)%string else formatStr in
            (* add cloud info message *)
            if ReportData.SendToCloud (data reportData) then
              match Config.Client config with
              | None => Panic "invalid memory address or nil pointer dereference"
              | Some client =>
                  match Extern.API.Error client with
                  | None => Val ((formatStr ++ sent_message ++ nl)%string, None)
                  | Some clientError =>
                      (* client error *)
                      Val ((formatStr ++ failed_message clientError ++ nl)%string, None)
                  end
              end
            else Val ((formatStr ++ nl)%string, None)
          else Val (formatStr, None)
      end
  end.

End FormatOutput.

End Pipeline.

(** ** What decoding settles in a filter *)

Module Invariant.

Import Yaml Settings.

(** [settled filter]: in [filter] and in every filter inside it, under [not],
    [either] and [filters], a filter that names a detection has a scope,
    [cursor] when it says [contains: false]. *)
Inductive settled : PatternFilter.t -> Prop :=
| settled_filter filter :
    (PatternFilter.Detection filter <> "" -> PatternFilter.Scope filter <> "") ->
    (PatternFilter.Detection filter <> "" ->
       PatternFilter.Contains filter = Some false ->
       PatternFilter.Scope filter = CURSOR_SCOPE) ->
    (forall inner, PatternFilter.Not filter = Some inner -> settled inner) ->
    Forall settled (elems (PatternFilter.Either filter)) ->
    Forall settled (elems (PatternFilter.Filters filter)) ->
    settled filter.

(** The number of nodes of a document. *)
Fixpoint size (n : Node) : nat :=
  match n with
  | Scalar _ _ => 1
  | Mapping content => S (list_sum (map (fun entry => size entry.2) content))
  | Sequence items => S (list_sum (map size items))
  end.

End Invariant.

(** ** More concrete inputs *)

Module Cases.

Import Yaml Settings.

(** [{variable: A, either: [{detection: Aux, variable: A}, {not: {detection:
    Sanitizer, variable: A, contains: false}}]}] *)
Definition yaml_nested : Node :=
  Mapping [("variable", str "A");
           ("either",
            Sequence [Mapping [("detection", str "Aux"); ("variable", str "A")];
                      Mapping [("not",
                                Mapping [("detection", str "Sanitizer");
                                         ("variable", str "A");
                                         ("contains", boolean false)])]])].

(** A formatter that prints the number of detections, in one format. *)
Definition count_formatter (reportData : Output.store) (config : Config.t)
    : Pipeline.formatter :=
  fun format =>
    if format =? "json" then
      (match Go.len (Output.ReportData.Detectors (Output.data reportData)) with
       | 0 => "[]"
       | _ => "[...]"
       end, None)
    else ("", None).

Definition count_formatter_security (reportData : Output.store) (config : Config.t)
    (goclocResult : option Pipeline.GoclocResult) (startTime endTime : Z)
    : Pipeline.formatter :=
  count_formatter reportData config.

(** A configuration for [--report <report> --format <format>], with or
    without a client. *)
Definition config_for (client : option Extern.API.t) (report format : string)
    (quiet : bool) : Config.t :=
  Config.mk client WorkerOptions.zero
    (Flag.ScanOptions.mk false "." "" quiet)
    (Flag.ReportOptions.mk format report "")
    ∅ nil_slice false ∅ "" "" ∅ ∅ false "" false false "" false.

(** Steps of the report packages that leave the data as it is. *)
Definition step_unchanged (reportData : Output.store) (config : Config.t)
    : Output.store * option error :=
  (reportData, None).

Definition security_fails (reportData : Output.store) (config : Config.t)
    (baseBranchFindings : option Pipeline.Findings) : Output.store * option error :=
  (reportData, Some "failed to evaluate policies").

Definition saas_unchanged (reportData : Output.store) (config : Config.t)
    (sendToCloud : bool) : Output.store * option error :=
  (reportData, None).

Definition stats_unchanged (reportData : Output.store) (report : Output.Report)
    (config : Config.t) : Output.store * option error :=
  (reportData, None).

Definition send_nothing (config : Config.t) (reportData : Output.store) : Output.store :=
  reportData.

(** Report data marked as sent to the cloud. *)
Definition sent_data : Output.store :=
  Pipeline.set_SendToCloud Examples.two_detections.

(** A detection that stands twice among the detections. *)
Definition repeated_detection : list Output.value :=
  [Output.VMap 0; Output.VMap 1; Output.VMap 0].

End Cases.

(** * Properties *)

Import Settings.

(** ** Severity and language of a rule *)

(** C7.  A rule whose severity field is empty has severity [low]; a rule with
    a severity has that severity. *)
Theorem GetSeverity_default (rule : Rule.t) :
  (Rule.Severity rule = "" -> Rule_GetSeverity rule = "low") /\
  (Rule.Severity rule <> "" -> Rule_GetSeverity rule = Rule.Severity rule).
Proof.
  unfold Rule_GetSeverity.
  destruct (String.eqb_spec (Rule.Severity rule) "") as [Heq | Hne]; split; intros H.
  - reflexivity.
  - contradiction.
  - contradiction.
  - reflexivity.
Qed.

Lemma GetSeverity_default_witness :
  Rule_GetSeverity Rule.zero = "low" /\
  Rule_GetSeverity Examples.rule_ruby = "high".
Proof.
  split.
  - apply (GetSeverity_default Rule.zero). reflexivity.
  - apply (GetSeverity_default Examples.rule_ruby). discriminate.
Defined.

(** The display name of a language tag, as the [switch] of [Language] gives
    it. *)
Lemma Language_first (rule : Rule.t) (tag : string) (tags : list string) :
  Rule.Languages rule = mk_slice (tag :: tags) ->
  Rule_Language rule =
    Val (if tag =? "java" then "Java"
         else if tag =? "javascript" then "JavaScript"
         else if tag =? "ruby" then "Ruby"
         else if tag =? "sql" then "SQL"
         else tag).
Proof.
  intros H. unfold Rule_Language. rewrite H. cbn.
  repeat case_match; reflexivity.
Qed.

(** C8, at the input where the code departs from it: the language list is
    empty but not [nil], and [Language] panics where the claim has it return
    ["secret"]. *)
Theorem Language_empty_list_panics :
  Go.len (Rule.Languages Examples.rule_empty_languages) = 0 /\
  Rule_Language Examples.rule_empty_languages =
    Panic "runtime error: index out of range".
Proof. split; reflexivity. Qed.

(** C9.  [Language] returns exactly when the language list is [nil] or has a
    first element: on [nil] it returns ["secret"], and on the empty list that
    is not [nil] the unguarded [Languages[0]] panics. *)
Theorem Language_total_iff (rule : Rule.t) :
  (returns (Rule_Language rule) = true <->
     Rule.Languages rule = nil_slice \/ elems (Rule.Languages rule) <> []) /\
  (Rule.Languages rule = nil_slice -> Rule_Language rule = Val "secret") /\
  (Rule.Languages rule = mk_slice [] ->
     Rule_Language rule = Panic "runtime error: index out of range").
Proof.
  split; [| split].
  - destruct (Rule.Languages rule) as [| [| tag tags]] eqn:Hl.
    + unfold Rule_Language. rewrite Hl. cbn. split; auto.
    + unfold Rule_Language. rewrite Hl. cbn. split.
      * discriminate.
      * intros [H | H]; [discriminate | contradiction].
    + rewrite (Language_first rule tag tags Hl). cbn. split; [| reflexivity].
      intros _. right. discriminate.
  - intros H. unfold Rule_Language. rewrite H. reflexivity.
  - intros H. unfold Rule_Language. rewrite H. reflexivity.
Qed.

Lemma Language_total_iff_witness :
  Rule_Language Rule.zero = Val "secret" /\
  Rule_Language Examples.rule_empty_languages =
    Panic "runtime error: index out of range" /\
  returns (Rule_Language Examples.rule_php) = true.
Proof.
  split; [| split].
  - apply (Language_total_iff Rule.zero). reflexivity.
  - apply (Language_total_iff Examples.rule_empty_languages). reflexivity.
  - apply (Language_total_iff Examples.rule_php). right. discriminate.
Defined.

(** ** The YAML hooks *)

Lemma set_Scope_same (filter : PatternFilter.t) :
  PatternFilter.set_Scope (PatternFilter.Scope filter) filter = filter.
Proof. destruct filter; reflexivity. Qed.

(** What the hook of [PatternFilter] returns, by cases on what the callback
    decoded. *)
Lemma PatternFilter_UnmarshalYAML_cases
    (receiver wrapped : PatternFilter.t) (unmarshal : unmarshal_func) :
  unmarshal to_wrapper PatternFilter.zero = Ok wrapped ->
  PatternFilter_UnmarshalYAML receiver unmarshal =
    Ok (if PatternFilter.Detection wrapped =? "" then wrapped
        else match PatternFilter.Contains wrapped with
             | Some false => PatternFilter.set_Scope CURSOR_SCOPE wrapped
             | _ => if PatternFilter.Scope wrapped =? "" then
                      PatternFilter.set_Scope NESTED_SCOPE wrapped
                    else wrapped
             end).
Proof.
  intros H. unfold PatternFilter_UnmarshalYAML. rewrite H.
  destruct (PatternFilter.Detection wrapped =? ""); cbn; [reflexivity |].
  destruct (PatternFilter.Contains wrapped) as [[|] |]; cbn; reflexivity.
Qed.

(** C1, as amended.  On a filter that names a detection, [contains: false]
    gives the scope [cursor]; [contains: true] or no [contains] gives the
    scope that was written, and [nested] when none was.  A filter that names
    no detection keeps the scope that was written.  Every other field is as
    decoded. *)
Theorem contains_flag_scope
    (receiver wrapped : PatternFilter.t) (unmarshal : unmarshal_func) :
  unmarshal to_wrapper PatternFilter.zero = Ok wrapped ->
  exists filter,
    PatternFilter_UnmarshalYAML receiver unmarshal = Ok filter /\
    filter = PatternFilter.set_Scope (PatternFilter.Scope filter) wrapped /\
    (PatternFilter.Detection wrapped <> "" ->
       (PatternFilter.Contains wrapped = Some false ->
          PatternFilter.Scope filter = CURSOR_SCOPE) /\
       (PatternFilter.Contains wrapped <> Some false ->
          PatternFilter.Scope wrapped = "" ->
          PatternFilter.Scope filter = NESTED_SCOPE) /\
       (PatternFilter.Contains wrapped <> Some false ->
          PatternFilter.Scope wrapped <> "" ->
          PatternFilter.Scope filter = PatternFilter.Scope wrapped)) /\
    (PatternFilter.Detection wrapped = "" ->
       PatternFilter.Scope filter = PatternFilter.Scope wrapped).
Proof.
  intros H. eexists. split.
  { apply PatternFilter_UnmarshalYAML_cases. exact H. }
  destruct (String.eqb_spec (PatternFilter.Detection wrapped) "") as [Hd | Hd].
  - split; [symmetry; apply set_Scope_same |].
    split; [intros Hne; contradiction | reflexivity].
  - destruct (PatternFilter.Contains wrapped) as [[|] |] eqn:Hc;
      destruct (String.eqb_spec (PatternFilter.Scope wrapped) "") as [Hs | Hs];
      cbn; (split; [try reflexivity; symmetry; apply set_Scope_same |]);
      (split; [| intros Hd'; contradiction]); intros _;
      repeat split; intros; try reflexivity; try congruence.
Qed.

Lemma contains_flag_scope_witness :
  exists filter,
    Decoder.decode_PatternFilter Decoder.strict Examples.yaml_legacy_cursor = Ok filter /\
    PatternFilter.Scope filter = "cursor".
Proof.
  destruct (contains_flag_scope PatternFilter.zero
              (PatternFilter.mk None nil_slice "X" "aux" "result" nil_slice nil_slice
                 (Some false) None nil_slice None None None None None None None)
              (Decoder.unmarshal Decoder.strict Examples.yaml_legacy_cursor)
              eq_refl)
    as (filter & Hok & _ & Hdet & _).
  exists filter. split; [exact Hok |].
  apply Hdet; [discriminate | reflexivity].
Defined.

(** C1 as stated fails twice over: a filter that names no detection keeps an
    empty scope under [contains: false], and a scope that is written wins
    over [contains: true]. *)
Lemma contains_flag_counterexample :
  (exists filter,
     Decoder.decode_PatternFilter Decoder.strict
       Examples.yaml_contains_without_detection = Ok filter /\
     PatternFilter.Contains filter = Some false /\
     PatternFilter.Scope filter = "" /\
     PatternFilter.Scope filter <> CURSOR_SCOPE) /\
  (exists filter,
     Decoder.decode_PatternFilter Decoder.strict
       Examples.yaml_contains_with_scope = Ok filter /\
     PatternFilter.Contains filter = Some true /\
     PatternFilter.Scope filter = "cursor" /\
     PatternFilter.Scope filter <> NESTED_SCOPE).
Proof.
  split; eexists; (split; [vm_compute; reflexivity |]);
    repeat split; discriminate.
Qed.

(** C3.  A reference filter written with neither [scope] nor [contains] has
    the scope [nested], the default. *)
Theorem reference_default_scope
    (receiver wrapped : PatternFilter.t) (unmarshal : unmarshal_func) :
  unmarshal to_wrapper PatternFilter.zero = Ok wrapped ->
  PatternFilter.Detection wrapped <> "" ->
  PatternFilter.Scope wrapped = "" ->
  PatternFilter.Contains wrapped = None ->
  exists filter,
    PatternFilter_UnmarshalYAML receiver unmarshal = Ok filter /\
    PatternFilter.Scope filter = "nested" /\
    filter = PatternFilter.set_Scope DefaultScope wrapped.
Proof.
  intros H Hd Hs Hc. eexists. split.
  { apply PatternFilter_UnmarshalYAML_cases. exact H. }
  apply String.eqb_neq in Hd. rewrite Hd, Hc, Hs. cbn. auto.
Qed.

Lemma reference_default_scope_witness :
  exists filter,
    Decoder.decode_PatternFilter Decoder.strict Examples.yaml_reference = Ok filter /\
    PatternFilter.Scope filter = "nested".
Proof.
  destruct (reference_default_scope PatternFilter.zero
              (PatternFilter.mk None nil_slice "A" "Aux" "" nil_slice nil_slice
                 None None nil_slice None None None None None None None)
              (Decoder.unmarshal Decoder.strict Examples.yaml_reference)
              eq_refl ltac:(discriminate) eq_refl eq_refl)
    as (filter & Hok & Hscope & _).
  exists filter. split; [exact Hok | exact Hscope].
Defined.

(** C2.  A rule pattern given as a string becomes, on the fresh value the
    decoder calls the hook on, a pattern with that string as its [Pattern],
    no focus and no filters; one that is not a string is what the decoder
    makes of it as the struct [rawRulePattern], field by field. *)
Theorem RulePattern_string_or_struct (unmarshal : unmarshal_func) :
  (forall pattern,
     unmarshal to_string "" = Ok pattern ->
     RulePattern_UnmarshalYAML RulePattern.zero unmarshal =
       Ok (RulePattern.mk pattern "" nil_slice)) /\
  (forall err rulePattern,
     unmarshal to_string "" = Err err ->
     RulePattern_UnmarshalYAML rulePattern unmarshal =
       unmarshal to_rawRulePattern rulePattern).
Proof.
  split.
  - intros pattern H. unfold RulePattern_UnmarshalYAML. rewrite H. reflexivity.
  - intros err rulePattern H. unfold RulePattern_UnmarshalYAML. rewrite H.
    reflexivity.
Qed.

Lemma RulePattern_string_or_struct_witness :
  Decoder.decode_RulePattern Decoder.strict Examples.yaml_pattern_string =
    Ok (RulePattern.mk "sleep($N)" "" nil_slice) /\
  Decoder.decode_RulePattern Decoder.strict Examples.yaml_pattern_struct =
    Ok (RulePattern.mk "sleep($N)" "N"
          (mk_slice
             [PatternFilter.mk None nil_slice "N" "" "" nil_slice nil_slice None
                None nil_slice None (Some 10%Z) None None None None None])).
Proof.
  split.
  - apply (RulePattern_string_or_struct
             (Decoder.unmarshal Decoder.strict Examples.yaml_pattern_string)).
    reflexivity.
  - etransitivity.
    + apply (RulePattern_string_or_struct
               (Decoder.unmarshal Decoder.strict Examples.yaml_pattern_struct))
        with (err := "cannot unmarshal !!map into string").
      reflexivity.
    + vm_compute. reflexivity.
Defined.

(** The hook sets [Pattern] and nothing else: on a receiver that is not the
    zero value the focus and the filters stay. *)
Lemma RulePattern_string_keeps_receiver
    (rulePattern : RulePattern.t) (unmarshal : unmarshal_func) (pattern : string) :
  unmarshal to_string "" = Ok pattern ->
  RulePattern_UnmarshalYAML rulePattern unmarshal =
    Ok (RulePattern.mk pattern (RulePattern.Focus rulePattern)
          (RulePattern.Filters rulePattern)).
Proof.
  intros H. unfold RulePattern_UnmarshalYAML. rewrite H. reflexivity.
Qed.

(** On YAML nodes: a string scalar, and a mapping. *)
Lemma decode_RulePattern_string (cfg : Decoder.config) (s : string) :
  Decoder.decode_RulePattern cfg (Yaml.str s) = Ok (RulePattern.mk s "" nil_slice).
Proof. reflexivity. Qed.

Lemma decode_RulePattern_mapping (cfg : Decoder.config) (content : list (string * Yaml.Node)) :
  Decoder.decode_RulePattern cfg (Yaml.Mapping content) =
    Decoder.rawRulePattern_mapping cfg (Decoder.decode_PatternFilter cfg) content
      RulePattern.zero.
Proof. reflexivity. Qed.

(** ** Unknown keys under the strict decoder *)

Section UnknownKeys.

Import Yaml Decoder.

Variable cfg : config.
Hypothesis strict_cfg : knownFields cfg = true.

Lemma unknown_key_is_mapping (t : target) (n : Node) :
  unknown_key t n -> is_null n = false.
Proof. intros H; destruct H; reflexivity. Qed.

Lemma unknown_key_mapping (t : target) (n : Node) :
  unknown_key t n -> exists content, n = Mapping content.
Proof. intros H; destruct H; eauto. Qed.

Lemma forallb_known_false (names ks : list string) (k : string) :
  k ∈ ks -> known names k = false -> forallb (known names) ks = false.
Proof.
  intros Hin Hk. induction Hin as [k ks | k k' ks Hin IH]; cbn.
  - rewrite Hk. reflexivity.
  - rewrite (IH Hk). apply andb_false_r.
Qed.

Lemma check_keys_unknown (names : list string) (content : list (string * Node)) (k : string) :
  k ∈ keys content -> known names k = false ->
  exists e, check_keys cfg names content = Err e.
Proof.
  intros Hin Hk. unfold check_keys.
  destruct (unique (keys content)); cbn; [| eauto].
  rewrite strict_cfg, (forallb_known_false names _ k Hin Hk). cbn. eauto.
Qed.

Lemma check_keys_unique (names : list string) (content : list (string * Node)) (u : unit) :
  check_keys cfg names content = Ok u -> unique (keys content) = true.
Proof.
  unfold check_keys. destruct (unique (keys content)); cbn; [reflexivity | discriminate].
Qed.

Lemma existsb_eqb_false (k : string) (ks : list string) :
  existsb (String.eqb k) ks = false -> k ∉ ks.
Proof.
  intros H Hin. induction Hin as [k ks | k k' ks Hin IH]; cbn in H.
  - rewrite String.eqb_refl in H. discriminate.
  - apply orb_false_iff in H as [_ H]. auto.
Qed.

(** Under distinct keys, [field] decodes the one entry of its key. *)
Lemma field_unique {A} (key : string) (decode : Node -> A -> result A)
    (content : list (string * Node)) (v : Node) (out : A) :
  unique (keys content) = true -> (key, v) ∈ content ->
  field key decode content out = decode v out.
Proof.
  induction content as [| [k' v'] content IH]; intros Hu Hin.
  - inversion Hin.
  - cbn in Hu. apply andb_true_iff in Hu as [Hfresh Hu].
    apply negb_true_iff, existsb_eqb_false in Hfresh.
    cbn. destruct (String.eqb_spec k' key) as [-> | Hne].
    + apply elem_of_cons in Hin as [Heq | Hin]; [congruence |].
      exfalso. apply Hfresh. unfold keys.
      apply list_elem_of_fmap. exists (key, v). auto.
    + apply elem_of_cons in Hin as [Heq | Hin]; [congruence |].
      apply IH; assumption.
Qed.

(** An element that fails makes the sequence fail. *)
Lemma sequence_element_fails {A} (element : Node -> result A)
    (items : list Node) (item : Node) (e : error) :
  item ∈ items -> is_null item = false -> element item = Err e ->
  exists e', sequence element (Sequence items) = Err e'.
Proof.
  intros Hin Hnull Herr. unfold sequence.
  match goal with
  | |- exists e', match ?go items with _ => _ end = _ =>
      assert (exists e', go items = Err e') as [e' He]; [| rewrite He; eauto]
  end.
  induction Hin as [item items | item item' items Hin IH].
  - rewrite Hnull, Herr. eauto.
  - destruct (is_null item'); [apply IH; assumption |].
    destruct (element item'); [| eauto].
    destruct (IH Hnull Herr) as [e' ->]. eauto.
Qed.

Lemma import_unknown (icontent : list (string * Node)) (k : string) :
  k ∈ keys icontent -> known RuleReferenceImport_fields k = false ->
  exists e, import cfg (Mapping icontent) = Err e.
Proof.
  intros Hin Hk. unfold import.
  destruct (check_keys_unknown _ _ _ Hin Hk) as [e ->]. cbn. eauto.
Qed.

(** One failing field fails the struct. *)
Ltac fail_at H :=
  repeat match goal with
         | |- exists e, Go.bind ?r _ = Err e =>
             first [ rewrite H; cbn [Go.bind]; eexists; reflexivity
                   | destruct r; cbn [Go.bind]; [| eexists; reflexivity] ]
         end.

Lemma unmarshal_rawRulePattern (content : list (string * Node)) (out : RulePattern.t) :
  unmarshal cfg (Mapping content) to_rawRulePattern out =
    rawRulePattern_mapping cfg (decode_PatternFilter cfg) content out.
Proof. reflexivity. Qed.

Lemma unmarshal_wrapper (content : list (string * Node)) (out : PatternFilter.t) :
  unmarshal cfg (Mapping content) to_wrapper out =
    wrapper_mapping cfg (decode_PatternFilter cfg) content out.
Proof. reflexivity. Qed.

(** Decoded at the type of a struct, a node with an unknown key is an
    error. *)
Lemma unknown_key_fails (t : target) (n : Node) :
  unknown_key t n -> forall out, exists e, unmarshal cfg n t out = Err e.
Proof.
  induction 1 as
    [ content k Hin Hk
    | content items item Hin Hitem Hun IH
    | content k Hin Hk
    | content v Hin Hun IH
    | content items item Hin Hitem Hun IH
    | content items item Hin Hitem Hun IH
    | content items icontent k Hin Hitem Hk Hunk ]; intros out.
  - rewrite unmarshal_rawRulePattern. unfold rawRulePattern_mapping.
    destruct (check_keys_unknown RulePattern_fields _ _ Hin Hk) as [e ->].
    cbn. eauto.
  - rewrite unmarshal_rawRulePattern. unfold rawRulePattern_mapping.
    destruct (check_keys cfg RulePattern_fields content) as [u | e] eqn:Hck;
      cbn [Go.bind]; [| eauto].
    apply check_keys_unique in Hck.
    destruct (IH PatternFilter.zero) as [e He].
    destruct (sequence_element_fails (decode_PatternFilter cfg) items item e Hitem
                (unknown_key_is_mapping _ _ Hun)) as [e' Hseq].
    { unfold decode_PatternFilter, PatternFilter_UnmarshalYAML. rewrite He. reflexivity. }
    pose proof (field_unique "filters"
                  (fun v (_ : slice PatternFilter.t) => sequence (decode_PatternFilter cfg) v)
                  content _ (RulePattern.Filters out) Hck Hin) as Hf.
    cbn beta in Hf. rewrite Hseq in Hf.
    fail_at Hf.
  - rewrite unmarshal_wrapper. unfold wrapper_mapping.
    destruct (check_keys_unknown PatternFilter_fields _ _ Hin Hk) as [e ->].
    cbn. eauto.
  - rewrite unmarshal_wrapper. unfold wrapper_mapping.
    destruct (check_keys cfg PatternFilter_fields content) as [u | e] eqn:Hck;
      cbn [Go.bind]; [| eauto].
    apply check_keys_unique in Hck.
    destruct (IH PatternFilter.zero) as [e He].
    pose proof (field_unique "not"
                  (fun v (_ : option PatternFilter.t) => pointer (decode_PatternFilter cfg) v)
                  content _ (PatternFilter.Not out) Hck Hin) as Hf.
    assert (pointer (decode_PatternFilter cfg) v = Err e) as Hp.
    { unfold pointer. rewrite (unknown_key_is_mapping _ _ Hun).
      unfold decode_PatternFilter, PatternFilter_UnmarshalYAML. rewrite He.
      reflexivity. }
    cbn beta in Hf. rewrite Hp in Hf.
    fail_at Hf.
  - rewrite unmarshal_wrapper. unfold wrapper_mapping.
    destruct (check_keys cfg PatternFilter_fields content) as [u | e] eqn:Hck;
      cbn [Go.bind]; [| eauto].
    apply check_keys_unique in Hck.
    destruct (IH PatternFilter.zero) as [e He].
    destruct (sequence_element_fails (decode_PatternFilter cfg) items item e Hitem
                (unknown_key_is_mapping _ _ Hun)) as [e' Hseq].
    { unfold decode_PatternFilter, PatternFilter_UnmarshalYAML. rewrite He. reflexivity. }
    pose proof (field_unique "either"
                  (fun v (_ : slice PatternFilter.t) => sequence (decode_PatternFilter cfg) v)
                  content _ (PatternFilter.Either out) Hck Hin) as Hf.
    cbn beta in Hf. rewrite Hseq in Hf.
    fail_at Hf.
  - rewrite unmarshal_wrapper. unfold wrapper_mapping.
    destruct (check_keys cfg PatternFilter_fields content) as [u | e] eqn:Hck;
      cbn [Go.bind]; [| eauto].
    apply check_keys_unique in Hck.
    destruct (IH PatternFilter.zero) as [e He].
    destruct (sequence_element_fails (decode_PatternFilter cfg) items item e Hitem
                (unknown_key_is_mapping _ _ Hun)) as [e' Hseq].
    { unfold decode_PatternFilter, PatternFilter_UnmarshalYAML. rewrite He. reflexivity. }
    pose proof (field_unique "filters"
                  (fun v (_ : slice PatternFilter.t) => sequence (decode_PatternFilter cfg) v)
                  content _ (PatternFilter.Filters out) Hck Hin) as Hf.
    cbn beta in Hf. rewrite Hseq in Hf.
    fail_at Hf.
  - rewrite unmarshal_wrapper. unfold wrapper_mapping.
    destruct (check_keys cfg PatternFilter_fields content) as [u | e] eqn:Hck;
      cbn [Go.bind]; [| eauto].
    apply check_keys_unique in Hck.
    destruct (import_unknown icontent k Hk Hunk) as [e He].
    destruct (sequence_element_fails (import cfg) items (Mapping icontent) e Hitem
                eq_refl He) as [e' Hseq].
    pose proof (field_unique "imports"
                  (fun v (_ : slice RuleReferenceImport.t) => sequence (import cfg) v)
                  content _ (PatternFilter.Imports out) Hck Hin) as Hf.
    cbn beta in Hf. rewrite Hseq in Hf.
    fail_at Hf.
Qed.

End UnknownKeys.

(** With a decoder that knows the fields (yaml.v3 after [KnownFields(true)]),
    a rule pattern or a filter with a key that is no field of its struct, at
    any depth, is an error of the hook. *)
Lemma unknown_keys_rejected (cfg : Decoder.config) (n : Yaml.Node) :
  Decoder.knownFields cfg = true ->
  (Decoder.unknown_key to_rawRulePattern n ->
     exists e, Decoder.decode_RulePattern cfg n = Err e) /\
  (Decoder.unknown_key to_wrapper n ->
     exists e, Decoder.decode_PatternFilter cfg n = Err e).
Proof.
  intros Hcfg. split; intros Hun.
  - destruct (unknown_key_fails cfg Hcfg _ _ Hun RulePattern.zero) as [e He].
    exists e. destruct (unknown_key_mapping _ _ Hun) as [content ->].
    exact He.
  - destruct (unknown_key_fails cfg Hcfg _ _ Hun PatternFilter.zero) as [e He].
    exists e. unfold Decoder.decode_PatternFilter, PatternFilter_UnmarshalYAML.
    rewrite He. reflexivity.
Qed.

Lemma unknown_keys_rejected_witness :
  exists e,
    Decoder.decode_RulePattern Decoder.strict Examples.yaml_pattern_unknown_key = Err e.
Proof.
  apply (unknown_keys_rejected Decoder.strict Examples.yaml_pattern_unknown_key eq_refl).
  eapply Decoder.unknown_in_pattern_filters.
  - apply list_elem_of_In. right. left. reflexivity.
  - apply list_elem_of_In. left. reflexivity.
  - eapply Decoder.unknown_in_filter with (k := "detections").
    + apply list_elem_of_In. right. left. reflexivity.
    + reflexivity.
Defined.

(** Without [knownFields] the same document is decoded, the undeclared key
    left aside. *)
Lemma unknown_key_lenient :
  Decoder.decode_RulePattern Decoder.lenient Examples.yaml_pattern_unknown_key =
    Ok (RulePattern.mk "Tracer.in_span($_, attributes: $A)" ""
          (mk_slice
             [PatternFilter.mk None nil_slice "A" "" "" nil_slice nil_slice None
                None nil_slice None None None None None None None])).
Proof. vm_compute. reflexivity. Qed.



(** ** Loading the configuration *)

Section Traverse.

Context {A B : Type} (f : A -> result B).

Lemma traverse_Forall2 (l : list A) (l' : list B) :
  traverse f l = Ok l' -> Forall2 (fun a b => f a = Ok b) l l'.
Proof.
  revert l'. induction l as [| a l IH]; intros l' H; cbn in H.
  - injection H as <-. constructor.
  - destruct (f a) as [b |] eqn:Hb; [| discriminate].
    destruct (traverse f l) as [bs |]; [| discriminate].
    injection H as <-. constructor; [exact Hb | apply IH; reflexivity].
Qed.

Lemma traverse_fails (l : list A) (a : A) (e : error) :
  a ∈ l -> f a = Err e -> exists e', traverse f l = Err e'.
Proof.
  intros Hin He. induction Hin as [a l | a a' l Hin IH]; cbn.
  - rewrite He. eauto.
  - destruct (f a'); [| eauto].
    destruct (IH He) as [e' ->]. eauto.
Qed.

End Traverse.

Section Policies.

Variable ReadFile : string -> result string.

Lemma expandModule_inlined (module module' : PolicyModule.t) :
  expandModule ReadFile module = Ok module' -> inlined ReadFile module module'.
Proof.
  unfold expandModule, inlined.
  destruct (PolicyModule.Path module =? "") eqn:Hp; cbn.
  - intros [= <-]. auto.
  - destruct (ReadFile (PolicyModule.Path module)) as [content |] eqn:Hr;
      [| discriminate].
    intros [= <-]. cbn. auto.
Qed.

Lemma expandPolicy_inlined (policy policy' : Policy.t) :
  expandPolicy ReadFile policy = Ok policy' ->
  Policy.Type_ policy' = Policy.Type_ policy /\
  Policy.Query policy' = Policy.Query policy /\
  Forall2 (inlined ReadFile) (elems (Policy.Modules policy))
          (elems (Policy.Modules policy')).
Proof.
  unfold expandPolicy, traverse_slice.
  destruct (Policy.Modules policy) as [| modules].
  - intros [= <-]. cbn. auto.
  - destruct (traverse (expandModule ReadFile) modules) as [modules' |] eqn:Ht;
      [| discriminate].
    intros [= <-]. cbn. repeat split.
    apply traverse_Forall2 in Ht.
    eapply Forall2_impl; [exact Ht |].
    intros module module'. apply expandModule_inlined.
Qed.

Lemma expandPolicy_fails (policy : Policy.t) (module : PolicyModule.t) (e : error) :
  module ∈ elems (Policy.Modules policy) ->
  PolicyModule.Path module <> "" ->
  ReadFile (PolicyModule.Path module) = Err e ->
  exists e', expandPolicy ReadFile policy = Err e'.
Proof.
  intros Hin Hpath Hread. unfold expandPolicy, traverse_slice.
  destruct (Policy.Modules policy) as [| modules]; [inversion Hin |].
  cbn in Hin.
  destruct (traverse_fails (expandModule ReadFile) modules module e Hin) as [e' ->].
  - unfold expandModule. apply String.eqb_neq in Hpath. rewrite Hpath, Hread.
    reflexivity.
  - eauto.
Qed.

(** The loop over the policies, read off the map it leaves. *)
Lemma expandPolicies_lookup (policies policies' : gmap string Policy.t) (key : string) :
  expandPolicies ReadFile policies = Ok policies' ->
  match policies !! key with
  | Some policy =>
      exists policy', policies' !! key = Some policy' /\
                      expandPolicy ReadFile policy = Ok policy'
  | None => policies' !! key = None
  end.
Proof.
  unfold expandPolicies.
  match goal with
  | |- match traverse ?g _ with _ => _ end = _ -> _ => set (step := g)
  end.
  destruct (traverse step (map_to_list policies)) as [entries |] eqn:Ht;
    [| discriminate].
  intros [= <-]. apply traverse_Forall2 in Ht.
  assert (Forall2 (fun (a b : string * Policy.t) =>
                     b.1 = a.1 /\ expandPolicy ReadFile a.2 = Ok b.2)
                  (map_to_list policies) entries) as Hall.
  { eapply Forall2_impl; [exact Ht |].
    intros [k p] [k' p']. unfold step. cbn.
    destruct (expandPolicy ReadFile p); [| discriminate].
    intros [= -> ->]. auto. }
  assert (entries.*1 = (map_to_list policies).*1) as Hkeys.
  { clear Ht. induction Hall as [| a b l l' [Hk _] _ IH]; cbn; [reflexivity |].
    rewrite Hk, IH. reflexivity. }
  assert (NoDup (entries.*1)) as Hnodup.
  { rewrite Hkeys. apply NoDup_fst_map_to_list. }
  destruct (policies !! key) as [policy |] eqn:Hlook.
  - apply elem_of_map_to_list in Hlook.
    apply list_elem_of_lookup in Hlook as [i Hi].
    destruct (Forall2_lookup_l _ _ _ _ _ Hall Hi) as ([k' policy'] & Hi' & Hk & Hp).
    cbn in Hk, Hp. subst k'.
    exists policy'. split; [| exact Hp].
    apply elem_of_list_to_map; [exact Hnodup |].
    apply list_elem_of_lookup. eauto.
  - apply not_elem_of_list_to_map. rewrite Hkeys.
    intros Hin. apply list_elem_of_fmap in Hin as ([k p] & -> & Hin).
    apply elem_of_map_to_list in Hin. cbn in Hlook. congruence.
Qed.

Lemma expandPolicies_fails (policies : gmap string Policy.t) (key : string)
    (policy : Policy.t) (module : PolicyModule.t) (e : error) :
  policies !! key = Some policy ->
  module ∈ elems (Policy.Modules policy) ->
  PolicyModule.Path module <> "" ->
  ReadFile (PolicyModule.Path module) = Err e ->
  exists e', expandPolicies ReadFile policies = Err e'.
Proof.
  intros Hlook Hin Hpath Hread. unfold expandPolicies.
  destruct (expandPolicy_fails policy module e Hin Hpath Hread) as [e1 He1].
  apply elem_of_map_to_list in Hlook.
  match goal with
  | |- exists e', match traverse ?g _ with _ => _ end = _ =>
      destruct (traverse_fails g _ _ e1 Hlook) as [e' ->]
  end.
  - cbn. rewrite He1. reflexivity.
  - eauto.
Qed.

End Policies.

Section Loading.

Variable defaultPolicies : result (list Policy.t).
Variable ReadFile : string -> result string.
Variable loadRules :
  slice string -> Flag.RuleOptions.t -> option Extern.VersionMeta -> bool ->
  result LoadRulesResult.t.
Variable GetIgnoredFingerprints :
  string -> string -> result (gmap string Extern.IgnoredFingerprint).
Variable opts : Flag.Options.t.
Variable versionMeta : option Extern.VersionMeta.

Local Abbreviation load :=
  (FromOptions defaultPolicies ReadFile loadRules GetIgnoredFingerprints opts versionMeta).

(** A configuration that is returned carries the policies as the loop over
    them left them. *)
Lemma FromOptions_policies (config : Config.t) (policies : gmap string Policy.t) :
  load = Val (config, None) ->
  DefaultPolicies defaultPolicies = Val policies ->
  expandPolicies ReadFile policies = Ok (Config.Policies config).
Proof.
  unfold FromOptions. intros H HD. rewrite HD in H.
  destruct (loadRules _ _ _ _); [| discriminate].
  destruct (expandPolicies ReadFile policies) as [policies' |]; [| discriminate].
  destruct (GetIgnoredFingerprints _ _); [| discriminate].
  cbn in H. repeat case_match; try discriminate; injection H as <-; reflexivity.
Qed.

(** When the loop over the policies fails, so does [FromOptions]. *)
Lemma FromOptions_policies_fail (policies : gmap string Policy.t) (e : error) :
  DefaultPolicies defaultPolicies = Val policies ->
  expandPolicies ReadFile policies = Err e ->
  exists err, load = Val (Config.zero, Some err).
Proof.
  unfold FromOptions. intros HD He. rewrite HD, He.
  destruct (loadRules _ _ _ _); eauto.
Qed.

(** C6.  In a configuration that [FromOptions] returns, every policy module
    with a [path] holds in [content] the text of the embedded file at that
    path, and the other modules and fields are as they were; when the file
    of a module with a [path] is missing, [FromOptions] returns an error and
    the zero [Config]. *)
Theorem policy_modules_inlined :
  (forall config policies key policy,
     FromOptions defaultPolicies ReadFile loadRules GetIgnoredFingerprints
       opts versionMeta = Val (config, None) ->
     DefaultPolicies defaultPolicies = Val policies ->
     policies !! key = Some policy ->
     exists policy',
       Config.Policies config !! key = Some policy' /\
       Policy.Type_ policy' = Policy.Type_ policy /\
       Policy.Query policy' = Policy.Query policy /\
       Forall2 (inlined ReadFile) (elems (Policy.Modules policy))
               (elems (Policy.Modules policy'))) /\
  (forall policies key policy module e,
     DefaultPolicies defaultPolicies = Val policies ->
     policies !! key = Some policy ->
     module ∈ elems (Policy.Modules policy) ->
     PolicyModule.Path module <> "" ->
     ReadFile (PolicyModule.Path module) = Err e ->
     exists err,
       FromOptions defaultPolicies ReadFile loadRules GetIgnoredFingerprints
         opts versionMeta = Val (Config.zero, Some err)).
Proof.
  split.
  - intros config policies key policy Hload HD Hlook.
    pose proof (FromOptions_policies config policies Hload HD) as Hexp.
    pose proof (expandPolicies_lookup ReadFile policies _ key Hexp) as Hkey.
    rewrite Hlook in Hkey. destruct Hkey as (policy' & Hlook' & Hp).
    exists policy'. split; [exact Hlook' |].
    apply expandPolicy_inlined. exact Hp.
  - intros policies key policy module e HD Hlook Hin Hpath Hread.
    destruct (expandPolicies_fails ReadFile policies key policy module e
                Hlook Hin Hpath Hread) as [e' He'].
    eapply FromOptions_policies_fail; eassumption.
Qed.

(** C10.  With a diff base branch, a report that is not the security report
    or an API client makes [FromOptions] return an error and the zero
    [Config]; the one other way out is [output.Fatal], on embedded policies
    that do not decode. *)
Theorem diff_base_branch_rejected :
  Flag.ScanOptions.DiffBaseBranch (Flag.Options.ScanOptions opts) <> "" ->
  Flag.ReportOptions.Report (Flag.Options.ReportOptions opts) <> Flag.ReportSecurity \/
    Flag.Options.Client opts <> None ->
  (exists err,
     FromOptions defaultPolicies ReadFile loadRules GetIgnoredFingerprints
       opts versionMeta = Val (Config.zero, Some err)) \/
  (exists msg,
     FromOptions defaultPolicies ReadFile loadRules GetIgnoredFingerprints
       opts versionMeta = Panic msg /\
     is_ok defaultPolicies = false).
Proof.
  intros Hdiff Hwhy. unfold FromOptions, DefaultPolicies.
  destruct defaultPolicies as [policy | e]; [left | right; eauto].
  destruct (loadRules _ _ _ _); [| eauto].
  destruct (expandPolicies ReadFile _); [| eauto].
  destruct (GetIgnoredFingerprints _ _); [| eauto].
  cbn. apply String.eqb_neq in Hdiff. rewrite Hdiff. cbn.
  destruct (String.eqb_spec
              (Flag.ReportOptions.Report (Flag.Options.ReportOptions opts))
              Flag.ReportSecurity) as [Hr | Hr]; cbn; [| eauto].
  destruct (Flag.Options.Client opts); [eauto |].
  destruct Hwhy as [Hw | Hw]; contradiction.
Qed.

End Loading.

(** ** Report data: detections and their ids *)

Section Ids.

Import Output.

Variables uuid1 uuid2 : nat -> string.

Lemma setId_agree (calls1 calls2 : nat) (detection : value) (h1 h2 : objects) :
  heaps_agree h1 h2 ->
  match setId uuid1 calls1 detection h1, setId uuid2 calls2 detection h2 with
  | Val h1', Val h2' => heaps_agree h1' h2'
  | Panic m1, Panic m2 => m1 = m2
  | _, _ => False
  end.
Proof.
  intros Hagree. destruct detection as [s | ref | token]; cbn; try reflexivity.
  pose proof (Hagree ref) as Href.
  destruct (h1 !! ref) as [m1 |], (h2 !! ref) as [m2 |]; cbn in Href;
    try discriminate; [| reflexivity].
  injection Href as Hm. intros ref'.
  destruct (decide (ref = ref')) as [<- | Hne].
  - rewrite !lookup_insert_eq. cbn. unfold without_id in *.
    rewrite !delete_insert_eq. congruence.
  - rewrite !lookup_insert_ne by assumption. apply Hagree.
Qed.

Lemma setIds_agree (detections : list value) :
  forall (calls1 calls2 : nat) (h1 h2 : objects),
    heaps_agree h1 h2 ->
    match setIds uuid1 calls1 detections h1, setIds uuid2 calls2 detections h2 with
    | Val h1', Val h2' => heaps_agree h1' h2'
    | Panic m1, Panic m2 => m1 = m2
    | _, _ => False
    end.
Proof.
  induction detections as [| detection detections IH]; intros calls1 calls2 h1 h2 Hagree.
  - exact Hagree.
  - cbn. pose proof (setId_agree calls1 calls2 detection h1 h2 Hagree) as Hstep.
    destruct (setId uuid1 calls1 detection h1) as [h1' | m1],
             (setId uuid2 calls2 detection h2) as [h2' | m2];
      try contradiction; [| exact Hstep].
    apply IH. exact Hstep.
Qed.

(** [last_call] is the last position of the detection, counted from
    [calls], and there is none exactly when the detection is not in the list. *)
Lemma last_call_None (detection : value) (detections : list value) (calls : nat) :
  last_call calls detection detections = None <-> detection ∉ detections.
Proof.
  revert calls. induction detections as [| d detections IH]; intros calls; cbn.
  - split; [intros _; apply not_elem_of_nil | reflexivity].
  - destruct (last_call (S calls) detection detections) as [call |] eqn:Hlater.
    + split; [discriminate |]. intros Hnot. exfalso.
      assert (last_call (S calls) detection detections = None) as Hnone.
      { apply IH. intros Hin. apply Hnot. right. exact Hin. }
      congruence.
    + apply IH in Hlater. destruct (decide (d = detection)) as [-> | Hne].
      * split; [discriminate |]. intros Hnot. exfalso. apply Hnot. left.
      * split; [| reflexivity]. intros _. apply not_elem_of_cons.
        split; [congruence | exact Hlater].
Qed.

Lemma last_call_Some (detection : value) (detections : list value) (calls call : nat) :
  last_call calls detection detections = Some call <->
  exists i,
    call = calls + i /\
    detections !! i = Some detection /\
    forall j, i < j -> detections !! j <> Some detection.
Proof.
  revert calls call. induction detections as [| d detections IH]; intros calls call; cbn.
  - split; [discriminate |]. intros (i & _ & Hi & _). destruct i; discriminate Hi.
  - destruct (last_call (S calls) detection detections) as [c |] eqn:Hlater.
    + apply IH in Hlater as (i & -> & Hi & Hlast). split.
      * intros [= <-]. exists (S i). split; [lia |]. split; [exact Hi |].
        intros [| j] Hj; [lia |]. cbn. apply Hlast. lia.
      * intros (i' & -> & Hi' & Hlast'). f_equal.
        destruct i' as [| i'].
        { exfalso. apply (Hlast' (S i)); [lia | exact Hi]. }
        cbn in Hi'.
        destruct (Nat.lt_trichotomy i i') as [Hlt | [<- | Hgt]]; [| lia |].
        { exfalso. apply (Hlast i' Hlt). exact Hi'. }
        { exfalso. apply (Hlast' (S i)); [lia | exact Hi]. }
    + apply last_call_None in Hlater.
      assert (forall i, detections !! i <> Some detection) as Hnowhere.
      { intros i Hi. apply Hlater. apply list_elem_of_lookup. eauto. }
      destruct (decide (d = detection)) as [-> | Hne].
      * split.
        { intros [= <-]. exists 0. split; [lia |]. split; [reflexivity |].
          intros [| j] Hj; [lia |]. cbn. apply Hnowhere. }
        { intros (i & -> & Hi & _). destruct i as [| i]; [f_equal; lia |].
          exfalso. exact (Hnowhere i Hi). }
      * split; [discriminate |]. intros (i & _ & Hi & _).
        destruct i as [| i]; cbn in Hi; [congruence |].
        exfalso. exact (Hnowhere i Hi).
Qed.





Variable detectors_AddReportData : store -> Report -> Config.t -> store * option error.
Variable dataflow_AddReportData : store -> Config.t -> bool -> store * option error.


(** [dataflow.AddReportData] does not look at the ids. *)
Hypothesis dataflow_ignores_ids :
  forall (s1 s2 : store) (config : Config.t) (isInternal : bool),
    agree s1 s2 ->
    (dataflow_AddReportData s1 config isInternal).2 =
      (dataflow_AddReportData s2 config isInternal).2 /\
    agree (dataflow_AddReportData s1 config isInternal).1
          (dataflow_AddReportData s2 config isInternal).1.

(** Where [dataflow.AddReportData] does not look at the ids, what the two runs
    return differs at most in the ["id"] entries as well. *)
Corollary GetDataflow_same_up_to_ids
    (reportData : store) (report : Report) (config : Config.t) (isInternal : bool) :
  same_up_to_ids
    (GetDataflow detectors_AddReportData dataflow_AddReportData uuid1
       reportData report config isInternal)
    (GetDataflow detectors_AddReportData dataflow_AddReportData uuid2
       reportData report config isInternal).
Proof.
  unfold GetDataflow.
  destruct (if is_nil (ReportData.Detectors (data reportData))
            then detectors_AddReportData reportData report config
            else (reportData, None)) as [st [err |]].
  - cbn. split; [reflexivity |]. split; [reflexivity |]. intros ref. reflexivity.
  - pose proof (setIds_agree (elems (ReportData.Detectors (data st))) 0 0
                  (heap st) (heap st) (fun ref => eq_refl)) as Hloop.
    destruct (setIds uuid1 0 _ (heap st)) as [h1 | m1],
             (setIds uuid2 0 _ (heap st)) as [h2 | m2];
      try contradiction; [| exact Hloop].
    cbn.
    destruct (dataflow_ignores_ids (mk_store (data st) h1) (mk_store (data st) h2)
                config isInternal) as [Herr Hag].
    { split; [reflexivity | exact Hloop]. }
    destruct (dataflow_AddReportData (mk_store (data st) h1) config isInternal)
      as [s1 e1].
    destruct (dataflow_AddReportData (mk_store (data st) h2) config isInternal)
      as [s2 e2].
    cbn in Herr, Hag. split; assumption.
Qed.

End Ids.


Lemma GetDataflow_same_up_to_ids_witness :
  Output.same_up_to_ids
    (Output.GetDataflow Examples.detectors_none Examples.dataflow_unchanged
       Examples.uuids_run1 Examples.two_detections (Output.report 0) Config.zero false)
    (Output.GetDataflow Examples.detectors_none Examples.dataflow_unchanged
       Examples.uuids_run2 Examples.two_detections (Output.report 0) Config.zero false).
Proof.
  apply (GetDataflow_same_up_to_ids Examples.uuids_run1 Examples.uuids_run2
           Examples.detectors_none Examples.dataflow_unchanged).
  intros s1 s2 config isInternal Hagree. split; [reflexivity | exact Hagree].
Defined.


(** The ids that a run leaves are the generated ones, an earlier id
    overwritten. *)
Lemma GetDataflow_ids_example :
  exists out,
    Output.GetDataflow Examples.detectors_none Examples.dataflow_unchanged
      Examples.uuids_run1 Examples.two_detections (Output.report 0) Config.zero false
      = Val (out, None) /\
    Output.id_of out 0 = Some (Output.VString (Examples.uuids_run1 0)) /\
    Output.id_of out 1 = Some (Output.VString (Examples.uuids_run1 1)).
Proof.
  eexists. split; [vm_compute; reflexivity |].
  split; vm_compute; reflexivity.
Qed.

Lemma policy_modules_inlined_witness :
  (exists config policy',
     FromOptions (Ok Examples.policies_yml) Examples.policiesFs Examples.loadRules_ok
       Examples.no_ignores (Examples.options None "security" "") None
       = Val (config, None) /\
     Config.Policies config !! "privacy_report" = Some policy' /\
     Forall2 (inlined Examples.policiesFs)
       [PolicyModule.mk "policies/common.rego" "bearer.common" "";
        PolicyModule.mk "" "bearer.inline" "package bearer.inline"]
       (elems (Policy.Modules policy'))) /\
  (exists err,
     FromOptions (Ok Examples.policies_yml_missing) Examples.policiesFs
       Examples.loadRules_ok Examples.no_ignores
       (Examples.options None "security" "") None
       = Val (Config.zero, Some err)).
Proof.
  split.
  - assert (exists config,
              FromOptions (Ok Examples.policies_yml) Examples.policiesFs
                Examples.loadRules_ok Examples.no_ignores
                (Examples.options None "security" "") None
              = Val (config, None)) as [config Hload].
    { eexists. vm_compute. reflexivity. }
    destruct (proj1 (policy_modules_inlined (Ok Examples.policies_yml)
                       Examples.policiesFs Examples.loadRules_ok Examples.no_ignores
                       (Examples.options None "security" "") None)
                config _ "privacy_report" _ Hload eq_refl eq_refl)
      as (policy' & Hlook & _ & _ & Hmods).
    exists config, policy'. split; [exact Hload |]. split; [exact Hlook | exact Hmods].
  - apply (proj2 (policy_modules_inlined (Ok Examples.policies_yml_missing)
                    Examples.policiesFs Examples.loadRules_ok Examples.no_ignores
                    (Examples.options None "security" "") None)
             _ "privacy_report" _
             (PolicyModule.mk "policies/gone.rego" "bearer.gone" "")
             "open: file does not exist" eq_refl eq_refl).
    + apply list_elem_of_In. right. left. reflexivity.
    + discriminate.
    + reflexivity.
Defined.

Lemma diff_base_branch_rejected_witness :
  (exists err,
     FromOptions (Ok Examples.policies_yml) Examples.policiesFs Examples.loadRules_ok
       Examples.no_ignores (Examples.options None "privacy" "main") None
       = Val (Config.zero, Some err)) /\
  (exists err,
     FromOptions (Ok Examples.policies_yml) Examples.policiesFs Examples.loadRules_ok
       Examples.no_ignores
       (Examples.options (Some (Extern.API.mk None)) "security" "main") None
       = Val (Config.zero, Some err)).
Proof.
  split.
  - destruct (diff_base_branch_rejected (Ok Examples.policies_yml)
                Examples.policiesFs Examples.loadRules_ok Examples.no_ignores
                (Examples.options None "privacy" "main") None)
      as [H | (msg & _ & Hbad)].
    + discriminate.
    + left. discriminate.
    + exact H.
    + discriminate Hbad.
  - destruct (diff_base_branch_rejected (Ok Examples.policies_yml)
                Examples.policiesFs Examples.loadRules_ok Examples.no_ignores
                (Examples.options (Some (Extern.API.mk None)) "security" "main") None)
      as [H | (msg & _ & Hbad)].
    + discriminate.
    + right. discriminate.
    + exact H.
    + discriminate Hbad.
Defined.

(** * Further properties of the code *)

(** ** The default policies *)

(** The map that the loop of [DefaultPolicies] builds holds, under a key, the
    last policy of that type met so far. *)
Lemma policies_by_type_lookup (policy : list Policy.t) (policies : gmap string Policy.t)
    (key : string) :
  foldl (fun policies policy => <[Policy.Type_ policy := policy]> policies) policies policy
    !! key =
  match last (filter (fun p => Policy.Type_ p = key) policy) with
  | Some p => Some p
  | None => policies !! key
  end.
Proof.
  revert policies. induction policy as [| p policy IH]; intros policies; [reflexivity |].
  cbn [foldl]. rewrite IH. rewrite filter_cons.
  destruct (decide (Policy.Type_ p = key)) as [Heq | Hne].
  - rewrite last_cons.
    destruct (last (filter (fun p0 => Policy.Type_ p0 = key) policy)); [reflexivity |].
    rewrite Heq. apply lookup_insert_eq.
  - destruct (last (filter (fun p0 => Policy.Type_ p0 = key) policy)); [reflexivity |].
    apply lookup_insert_ne. exact Hne.
Qed.

(** X1.  [DefaultPolicies] keys the policies of the embedded file by their
    type: under a key stands the last policy of that type in the file, so
    every type of the file has an entry, every entry is a policy of the file
    under its own type, and of two policies with one type the later wins.  A
    file that does not decode ends the process. *)
Theorem DefaultPolicies_by_type (defaultPolicies : result (list Policy.t)) :
  match defaultPolicies with
  | Ok policy =>
      exists policies,
        DefaultPolicies defaultPolicies = Val policies /\
        (forall key,
           policies !! key = last (filter (fun p => Policy.Type_ p = key) policy)) /\
        (forall key p, policies !! key = Some p -> p ∈ policy /\ Policy.Type_ p = key) /\
        (forall p, p ∈ policy -> is_Some (policies !! Policy.Type_ p))
  | Err _ => returns (DefaultPolicies defaultPolicies) = false
  end.
Proof.
  destruct defaultPolicies as [policy | e]; [| reflexivity].
  eexists. split; [reflexivity |].
  assert (forall key,
            foldl (fun policies policy => <[Policy.Type_ policy := policy]> policies)
              (∅ : gmap string Policy.t) policy !! key =
            last (filter (fun p => Policy.Type_ p = key) policy)) as Hlook.
  { intros key. rewrite policies_by_type_lookup, lookup_empty.
    destruct (last _); reflexivity. }
  split; [exact Hlook |]. split.
  - intros key p Hp. rewrite Hlook in Hp.
    apply last_Some_elem_of in Hp. apply list_elem_of_filter in Hp as [Ht Hin]. auto.
  - intros p Hin. rewrite Hlook.
    destruct (last (filter (fun p0 => Policy.Type_ p0 = Policy.Type_ p) policy))
      as [q |] eqn:Hlast; [eauto |].
    apply last_None in Hlast.
    assert (p ∈ filter (fun p0 => Policy.Type_ p0 = Policy.Type_ p) policy) as Hp.
    { apply list_elem_of_filter. auto. }
    rewrite Hlast in Hp. inversion Hp.
Qed.

(** ** Rego modules *)

Lemma ToRegoModules_loop (modules : list PolicyModule.t) (output : slice Rego.RegoModule.t) :
  let step := fun output module =>
    append output
      (Rego.RegoModule.mk (PolicyModule.Name module) (PolicyModule.Content module)) in
  elems (foldl step output modules) =
    elems output ++
    map (fun module =>
           Rego.RegoModule.mk (PolicyModule.Name module) (PolicyModule.Content module))
        modules /\
  is_nil (foldl step output modules) =
    is_nil output && match modules with [] => true | _ => false end.
Proof.
  cbn zeta. revert output. induction modules as [| module modules IH]; intros output.
  - cbn. rewrite app_nil_r, andb_true_r. auto.
  - cbn [foldl]. destruct (IH (append output
                                 (Rego.RegoModule.mk (PolicyModule.Name module)
                                    (PolicyModule.Content module)))) as [He Hn].
    rewrite He, Hn. cbn. rewrite <- app_assoc, andb_false_r. auto.
Qed.

(** X2.  [ToRegoModules] gives one rego module per policy module, in the same
    order, with its name and content; the result is [nil] exactly when there
    is no module, also for a module list that is empty and not [nil]. *)
Theorem ToRegoModules_elems (modules : Modules) :
  elems (Rego.ToRegoModules modules) =
    map (fun module =>
           Rego.RegoModule.mk (PolicyModule.Name module) (PolicyModule.Content module))
        (elems modules) /\
  len (Rego.ToRegoModules modules) = len modules /\
  (is_nil (Rego.ToRegoModules modules) = true <-> elems modules = []).
Proof.
  unfold Rego.ToRegoModules.
  destruct (ToRegoModules_loop (elems modules) nil_slice) as [He Hn]. cbn zeta in He, Hn.
  split; [exact He |]. split.
  - unfold len. rewrite He. cbn. apply length_map.
  - rewrite Hn. cbn. destruct (elems modules); split; intros H; congruence.
Qed.

(** ** Languages by name *)

(** X3.  [Get] knows the one name [ruby], in lower case: every other name,
    the empty one and [Ruby] among them, is an error that quotes the name. *)
Theorem Get_only_ruby (Language : Type) (ruby_Get : Language) (name : string) :
  (LanguageGet.Get Language ruby_Get name = Ok ruby_Get <-> name = "ruby") /\
  (name <> "ruby" ->
     LanguageGet.Get Language ruby_Get name =
       Err ("unsupported language '" ++ name ++ "'")%string) /\
  is_ok (LanguageGet.Get Language ruby_Get "") = false /\
  is_ok (LanguageGet.Get Language ruby_Get "Ruby") = false.
Proof.
  unfold LanguageGet.Get.
  destruct (String.eqb_spec name "ruby") as [Heq | Hne]; repeat split;
    try (intros; congruence); try reflexivity; intros H; discriminate.
Qed.

(** ** The hooks, once more *)

(** X4.  What the hook of [PatternFilter] returns is settled: a reference
    filter has a scope, [cursor] under [contains: false], and decoding the
    same fields again gives the same filter. *)
Theorem PatternFilter_UnmarshalYAML_settled
    (receiver filter : PatternFilter.t) (unmarshal : unmarshal_func) :
  PatternFilter_UnmarshalYAML receiver unmarshal = Ok filter ->
  (PatternFilter.Detection filter <> "" -> PatternFilter.Scope filter <> "") /\
  (PatternFilter.Detection filter <> "" ->
     PatternFilter.Contains filter = Some false ->
     PatternFilter.Scope filter = CURSOR_SCOPE) /\
  (forall receiver' (unmarshal' : unmarshal_func),
     unmarshal' to_wrapper PatternFilter.zero = Ok filter ->
     PatternFilter_UnmarshalYAML receiver' unmarshal' = Ok filter).
Proof.
  intros H.
  destruct (unmarshal to_wrapper PatternFilter.zero) as [wrapped | e] eqn:Hw.
  2: { unfold PatternFilter_UnmarshalYAML in H. rewrite Hw in H. discriminate. }
  rewrite (PatternFilter_UnmarshalYAML_cases receiver wrapped unmarshal Hw) in H.
  injection H as <-.
  assert (forall w : PatternFilter.t,
            (if PatternFilter.Detection w =? "" then w
             else match PatternFilter.Contains w with
                  | Some false => PatternFilter.set_Scope CURSOR_SCOPE w
                  | _ => if PatternFilter.Scope w =? "" then
                           PatternFilter.set_Scope NESTED_SCOPE w
                         else w
                  end) = w ->
            forall receiver' (unmarshal' : unmarshal_func),
              unmarshal' to_wrapper PatternFilter.zero = Ok w ->
              PatternFilter_UnmarshalYAML receiver' unmarshal' = Ok w) as Hfix.
  { intros w Hsame receiver' unmarshal' Hw'.
    rewrite (PatternFilter_UnmarshalYAML_cases receiver' w unmarshal' Hw').
    rewrite Hsame. reflexivity. }
  destruct (String.eqb_spec (PatternFilter.Detection wrapped) "") as [Hd | Hd].
  - split; [intros Hne; contradiction |]. split; [intros Hne; contradiction |].
    apply Hfix. apply String.eqb_eq in Hd. rewrite Hd. reflexivity.
  - apply String.eqb_neq in Hd.
    destruct wrapped as [n e v d sc f i c r vs l1 l2 l3 l4 l5 sr fr]. cbn in *.
    destruct c as [[|] |]; destruct (String.eqb_spec sc "") as [Hs | Hs]; cbn;
      (split; [intros _; try discriminate; try exact Hs |]);
      (split; [intros _ Hc; try discriminate Hc; try reflexivity |]);
      apply Hfix; cbn; rewrite Hd; try reflexivity;
      apply String.eqb_neq in Hs; rewrite Hs; reflexivity.
Qed.

Lemma PatternFilter_UnmarshalYAML_settled_witness :
  PatternFilter.Scope
    (PatternFilter.mk None nil_slice "X" "aux" "cursor" nil_slice nil_slice
       (Some false) None nil_slice None None None None None None None) = "cursor".
Proof.
  apply (PatternFilter_UnmarshalYAML_settled PatternFilter.zero _
           (Decoder.unmarshal Decoder.strict Examples.yaml_legacy_cursor)).
  - vm_compute. reflexivity.
  - discriminate.
  - reflexivity.
Defined.

(** ** [FromOptions]: when it succeeds and which errors it returns *)

Section TraverseMore.

Context {A B : Type} (f : A -> result B).

Lemma traverse_succeeds (l : list A) :
  (forall a, a ∈ l -> is_ok (f a) = true) -> is_ok (traverse f l) = true.
Proof.
  induction l as [| a l IH]; intros Hall; [reflexivity |]. cbn.
  pose proof (Hall a ltac:(left)) as Ha.
  destruct (f a); [| discriminate].
  assert (is_ok (traverse f l) = true) as Hl.
  { apply IH. intros a' Hin. apply Hall. right. exact Hin. }
  destruct (traverse f l); [reflexivity | discriminate].
Qed.


End TraverseMore.

Section PoliciesMore.

Variable ReadFile : string -> result string.

Lemma expandPolicy_succeeds (policy : Policy.t) :
  (forall module,
     module ∈ elems (Policy.Modules policy) ->
     PolicyModule.Path module <> "" ->
     is_ok (ReadFile (PolicyModule.Path module)) = true) ->
  is_ok (expandPolicy ReadFile policy) = true.
Proof.
  intros Hall. unfold expandPolicy, traverse_slice.
  destruct (Policy.Modules policy) as [| modules]; [reflexivity |]. cbn in Hall.
  pose proof (traverse_succeeds (expandModule ReadFile) modules) as Ht.
  destruct (traverse (expandModule ReadFile) modules); [reflexivity |].
  apply Ht. intros module Hin. unfold expandModule.
  destruct (String.eqb_spec (PolicyModule.Path module) "") as [Hp | Hp]; cbn;
    [reflexivity |].
  pose proof (Hall module Hin Hp) as Hr.
  destruct (ReadFile (PolicyModule.Path module)); [reflexivity | discriminate].
Qed.

Lemma expandPolicies_succeeds (policies : gmap string Policy.t) :
  readable ReadFile policies -> is_ok (expandPolicies ReadFile policies) = true.
Proof.
  intros Hall. unfold expandPolicies.
  match goal with
  | |- is_ok (match traverse ?g _ with _ => _ end) = true =>
      pose proof (traverse_succeeds g (map_to_list policies)) as Ht;
      destruct (traverse g (map_to_list policies)); [reflexivity |]
  end.
  apply Ht. intros [key policy] Hin. apply elem_of_map_to_list in Hin. cbn.
  pose proof (expandPolicy_succeeds policy (fun module => Hall key policy module Hin)) as Hp.
  destruct (expandPolicy ReadFile policy); [reflexivity | discriminate].
Qed.



End PoliciesMore.

Section LoadingMore.

Variable defaultPolicies : result (list Policy.t).
Variable ReadFile : string -> result string.
Variable loadRules :
  slice string -> Flag.RuleOptions.t -> option Extern.VersionMeta -> bool ->
  result LoadRulesResult.t.
Variable GetIgnoredFingerprints :
  string -> string -> result (gmap string Extern.IgnoredFingerprint).
Variable opts : Flag.Options.t.
Variable versionMeta : option Extern.VersionMeta.

Local Abbreviation rules :=
  (loadRules (Flag.Options.ExternalRuleDir opts) (Flag.Options.RuleOptions opts)
     versionMeta (Flag.ScanOptions.Force (Flag.Options.ScanOptions opts))).
Local Abbreviation ignored :=
  (GetIgnoredFingerprints
     (Flag.GeneralOptions.IgnoreFile (Flag.Options.GeneralOptions opts))
     (Flag.ScanOptions.Target (Flag.Options.ScanOptions opts))).

Lemma expandPolicies_readable (policies policies' : gmap string Policy.t) :
  expandPolicies ReadFile policies = Ok policies' -> readable ReadFile policies.
Proof.
  intros Hok key policy module Hlook Hin Hpath.
  destruct (ReadFile (PolicyModule.Path module)) as [content | e] eqn:Hr;
    [reflexivity |].
  destruct (expandPolicies_fails ReadFile policies key policy module e
              Hlook Hin Hpath Hr) as [e' He'].
  congruence.
Qed.

(** X5.  [FromOptions] returns a configuration and no error exactly when the
    embedded policies decode, the file of every module with a [path] of the
    policies kept by [DefaultPolicies] can be read, [loadRules] and
    [GetIgnoredFingerprints] succeed, and a diff base branch, if one is set,
    comes with the security report and no API client. *)
Theorem FromOptions_succeeds_iff :
  (exists config,
     FromOptions defaultPolicies ReadFile loadRules GetIgnoredFingerprints
       opts versionMeta = Val (config, None)) <->
  (exists policies,
     DefaultPolicies defaultPolicies = Val policies /\ readable ReadFile policies) /\
  is_ok rules = true /\
  is_ok ignored = true /\
  (Flag.ScanOptions.DiffBaseBranch (Flag.Options.ScanOptions opts) = "" \/
   Flag.ReportOptions.Report (Flag.Options.ReportOptions opts) = Flag.ReportSecurity /\
   Flag.Options.Client opts = None).
Proof.
  unfold FromOptions. split.
  - intros [config H].
    destruct (DefaultPolicies defaultPolicies) as [policies | msg]; [| discriminate].
    destruct rules; [| discriminate].
    destruct (expandPolicies ReadFile policies) as [policies' |] eqn:Hexp;
      [| discriminate].
    destruct ignored; [| discriminate].
    cbn in H. split; [| split; [reflexivity | split; [reflexivity |]]].
    { exists policies. split; [reflexivity |].
      eapply expandPolicies_readable. exact Hexp. }
    destruct (String.eqb_spec
                (Flag.ScanOptions.DiffBaseBranch (Flag.Options.ScanOptions opts)) "")
      as [Hd | Hd]; [left; exact Hd | right]. cbn in H.
    destruct (String.eqb_spec
                (Flag.ReportOptions.Report (Flag.Options.ReportOptions opts))
                Flag.ReportSecurity) as [Hr | Hr]; cbn in H; [| discriminate].
    destruct (Flag.Options.Client opts); [discriminate |]. auto.
  - intros ((policies & HD & Hread) & Hrules & Hign & Hdiff). rewrite HD.
    destruct rules; [| discriminate].
    pose proof (expandPolicies_succeeds ReadFile policies Hread) as Hexp.
    destruct (expandPolicies ReadFile policies); [| discriminate].
    destruct ignored; [| discriminate].
    cbn. destruct Hdiff as [Hd | [Hr Hc]].
    + rewrite Hd. cbn. eauto.
    + rewrite Hr, Hc. rewrite String.eqb_refl. cbn.
      destruct (_ =? ""); cbn; eauto.
Qed.


(** X7.  In a configuration that [FromOptions] returns, the rego modules of
    a policy are those of the embedded policy file, one by one under the
    same names, a module with a [path] carrying the text of its file. *)
Theorem FromOptions_rego_modules (config : Config.t) (policies : gmap string Policy.t)
    (key : string) (policy : Policy.t) :
  FromOptions defaultPolicies ReadFile loadRules GetIgnoredFingerprints
    opts versionMeta = Val (config, None) ->
  DefaultPolicies defaultPolicies = Val policies ->
  policies !! key = Some policy ->
  exists policy',
    Config.Policies config !! key = Some policy' /\
    Forall2 (fun module rego =>
               Rego.RegoModule.Name rego = PolicyModule.Name module /\
               if PolicyModule.Path module =? "" then
                 Rego.RegoModule.Content rego = PolicyModule.Content module
               else ReadFile (PolicyModule.Path module) = Ok (Rego.RegoModule.Content rego))
            (elems (Policy.Modules policy))
            (elems (Rego.ToRegoModules (Policy.Modules policy'))).
Proof.
  intros Hload HD Hlook.
  pose proof (FromOptions_policies defaultPolicies ReadFile loadRules
                GetIgnoredFingerprints opts versionMeta config policies Hload HD) as Hexp.
  pose proof (expandPolicies_lookup ReadFile policies _ key Hexp) as Hkey.
  rewrite Hlook in Hkey. destruct Hkey as (policy' & Hlook' & Hp).
  exists policy'. split; [exact Hlook' |].
  apply expandPolicy_inlined in Hp as (_ & _ & Hmods).
  unfold Rego.ToRegoModules.
  destruct (ToRegoModules_loop (elems (Policy.Modules policy')) nil_slice) as [-> _].
  cbn [elems app]. apply Forall2_fmap_r.
  eapply Forall2_impl; [exact Hmods |].
  intros module module' (Hpath & Hname & Hcontent). cbn. auto.
Qed.

End LoadingMore.

(** ** The ids of the detections *)

Section SetIds.

Import Output.

Variable uuid : nat -> string.

Lemma setId_Val (calls : nat) (detection : value) (h h' : objects) :
  setId uuid calls detection h = Val h' ->
  exists ref m,
    detection = VMap ref /\ h !! ref = Some m /\
    h' = <[ref := <["id" := VString (uuid calls)]> m]> h.
Proof.
  destruct detection as [s | ref | token]; cbn; try discriminate.
  destruct (h !! ref) as [m |] eqn:Hm; [| discriminate].
  intros [= <-]. eauto.
Qed.

(** X8.  The loop of [GetDataflow] over the detections returns exactly when
    every detection is a map that is not [nil]; a detection of any other
    dynamic type makes it panic. *)
Theorem setIds_returns_iff (detections : list value) (calls : nat) (h : objects) :
  returns (setIds uuid calls detections h) = true <->
  forall detection, detection ∈ detections ->
    exists ref, detection = VMap ref /\ is_Some (h !! ref).
Proof.
  revert calls h. induction detections as [| d detections IH]; intros calls h; cbn.
  - split; [intros _ d Hin; inversion Hin | reflexivity].
  - destruct (setId uuid calls d h) as [h1 | msg] eqn:Hd.
    + apply setId_Val in Hd as (ref & m & -> & Hm & ->).
      rewrite IH. split.
      * intros Hall d Hin. apply elem_of_cons in Hin as [-> | Hin].
        { exists ref. split; [reflexivity | eauto]. }
        destruct (Hall d Hin) as (ref' & -> & Hsome).
        exists ref'. split; [reflexivity |].
        apply lookup_insert_is_Some' in Hsome as [<- | Hsome]; eauto.
      * intros Hall d Hin. destruct (Hall d ltac:(right; exact Hin)) as (ref' & -> & Hsome).
        exists ref'. split; [reflexivity |].
        apply lookup_insert_is_Some'. auto.
    + split; [discriminate |]. intros Hall.
      destruct (Hall d ltac:(left)) as (ref & -> & [m Hm]).
      cbn in Hd. rewrite Hm in Hd. discriminate.
Qed.

(** X9.  The loop writes ids and nothing else: the heap keeps its maps, a map
    keeps every entry but ["id"], a map that is no detection is untouched,
    and every detection holds, as its ["id"], a string that the generator
    returned during this loop. *)
Theorem setIds_frame (detections : list value) (calls : nat) (h h' : objects) :
  setIds uuid calls detections h = Val h' ->
  dom h' = dom h /\
  heaps_agree h h' /\
  (forall ref, VMap ref ∉ detections -> h' !! ref = h !! ref) /\
  (forall ref, VMap ref ∈ detections ->
     exists m k,
       h' !! ref = Some m /\ m !! "id" = Some (VString (uuid k)) /\
       calls <= k < calls + length detections).
Proof.
  revert calls h. induction detections as [| d detections IH]; intros calls h; cbn.
  - intros [= <-]. split; [reflexivity |]. split; [intros ref; reflexivity |].
    split; [reflexivity |]. intros ref Hin. inversion Hin.
  - destruct (setId uuid calls d h) as [h1 | msg] eqn:Hd; [| discriminate].
    apply setId_Val in Hd as (ref & m & -> & Hm & ->). intros Hloop.
    destruct (IH _ _ Hloop) as (Hdom & Hagree & Hother & Hids).
    split; [| split; [| split]].
    + rewrite Hdom. apply dom_insert_lookup_L. eauto.
    + intros ref'. rewrite <- (Hagree ref').
      destruct (decide (ref = ref')) as [<- | Hne].
      * rewrite lookup_insert_eq, Hm. cbn. unfold without_id.
        rewrite delete_insert_eq. reflexivity.
      * rewrite lookup_insert_ne by exact Hne. reflexivity.
    + intros ref' Hnot. rewrite Hother.
      * apply lookup_insert_ne. intros ->. apply Hnot. left.
      * intros Hin. apply Hnot. right. exact Hin.
    + intros ref' Hin.
      destruct (decide (VMap ref' ∈ detections)) as [Hlater | Hlast].
      * destruct (Hids ref' Hlater) as (m' & k & Hm' & Hid & Hk).
        exists m', k. split; [exact Hm' |]. split; [exact Hid | lia].
      * apply elem_of_cons in Hin as [[= ->] | Hin]; [| contradiction].
        exists (<["id" := VString (uuid calls)]> m), calls.
        rewrite (Hother ref Hlast), lookup_insert_eq.
        split; [reflexivity |]. split; [apply lookup_insert_eq | lia].
Qed.

(** X10.  Ids are handed out in the order of the detections: the detection at
    position [i] holds the [i]-th string of the generator, unless the same
    map stands again further on. *)
Theorem setIds_in_order (detections : list value) (calls : nat) (h h' : objects)
    (i ref : nat) :
  setIds uuid calls detections h = Val h' ->
  detections !! i = Some (VMap ref) ->
  (forall j, i < j -> detections !! j <> Some (VMap ref)) ->
  exists m, h' !! ref = Some m /\ m !! "id" = Some (VString (uuid (calls + i))).
Proof.
  revert calls h i. induction detections as [| d detections IH]; intros calls h i; cbn.
  - intros _ Hi. inversion Hi.
  - destruct (setId uuid calls d h) as [h1 | msg] eqn:Hd; [| discriminate].
    intros Hloop Hi Hlast. destruct i as [| i].
    + injection Hi as ->. apply setId_Val in Hd as (ref' & m & [= <-] & Hm & ->).
      destruct (setIds_frame _ _ _ _ Hloop) as (_ & _ & Hother & _).
      rewrite Hother.
      * exists (<["id" := VString (uuid calls)]> m).
        rewrite lookup_insert_eq, Nat.add_0_r.
        split; [reflexivity | apply lookup_insert_eq].
      * intros Hin. apply list_elem_of_lookup in Hin as [j Hj].
        apply (Hlast (S j)); [lia | exact Hj].
    + replace (calls + S i) with (S calls + i) by lia.
      apply (IH (S calls) h1 i Hloop Hi).
      intros j Hj. apply (Hlast (S j)). lia.
Qed.

End SetIds.

(** ** Report data and its formatting *)

Section GetDataFacts.

Import Output Pipeline.

Variable detectors_AddReportData : store -> Report -> Config.t -> store * option error.
Variable dataflow_AddReportData : store -> Config.t -> bool -> store * option error.
Variable uuid_NewString : nat -> string.
Variable security_AddReportData :
  store -> Config.t -> option Findings -> store * option error.
Variable saas_GetReport : store -> Config.t -> bool -> store * option error.
Variable privacy_AddReportData : store -> Config.t -> store * option error.
Variable stats_AddReportData : store -> Report -> Config.t -> store * option error.
Variable saas_SendReport : Config.t -> store -> store.

Lemma upload_data (attempt : bool) (config : Config.t) (data : store) (err : option error) :
  exists data', upload saas_SendReport attempt config data err = Val (Some data', err).
Proof. unfold upload. destruct (attempt && client_ready config); eauto. Qed.

(** X11.  [GetData] returns no data in two cases only, each with an error:
    for the saas report when [security.AddReportData] fails, with the error of
    that step, and for a report kind that it does not know, with the error
    that the report is not supported.  In both, [detectors.AddReportData] and
    [GetDataflow] have run without error before.  For the detectors, dataflow,
    security, privacy and stats reports, and for the saas report whose
    security step succeeds, the data is there whenever [GetData] returns. *)
Theorem GetData_nil_data (report : Report) (config : Config.t)
    (baseBranchFindings : option Findings) (err : option error) :
  GetData detectors_AddReportData dataflow_AddReportData uuid_NewString
    security_AddReportData saas_GetReport privacy_AddReportData stats_AddReportData
    saas_SendReport report config baseBranchFindings = Val (None, err) <->
  exists data0 data1,
    detectors_AddReportData empty_data report config = (data0, None) /\
    GetDataflow detectors_AddReportData dataflow_AddReportData uuid_NewString
      data0 report config true = Val (data1, None) /\
    ((Flag.ReportOptions.Report (Config.Report config) = ReportSaaS /\
      exists data2 e,
        security_AddReportData data1 config baseBranchFindings = (data2, Some e) /\
        err = Some e) \/
     ((Flag.ReportOptions.Report (Config.Report config) ∉
         [ReportDetectors; ReportDataFlow; Flag.ReportSecurity; ReportSaaS;
          ReportPrivacy; ReportStats]) /\
      err = Some (not_supported (Flag.ReportOptions.Report (Config.Report config))))).
Proof.
  unfold GetData.
  destruct (detectors_AddReportData empty_data report config) as [data err0].
  set (kind := Flag.ReportOptions.Report (Config.Report config)).
  assert (forall known : string,
            known ∈ [ReportDetectors; ReportDataFlow; Flag.ReportSecurity; ReportSaaS;
                     ReportPrivacy; ReportStats] ->
            kind = known ->
            kind ∉ [ReportDetectors; ReportDataFlow; Flag.ReportSecurity; ReportSaaS;
                    ReportPrivacy; ReportStats] -> False) as Hknown.
  { intros known Hin -> Hnot. exact (Hnot Hin). }
  assert (forall known : string,
            known ∈ [ReportDetectors; ReportDataFlow; Flag.ReportSecurity;
                     ReportPrivacy; ReportStats] ->
            kind = known -> kind = ReportSaaS -> False) as Hother.
  { intros known Hin -> Hsaas. rewrite Hsaas in Hin.
    repeat (apply elem_of_cons in Hin as [Hin | Hin]; [discriminate Hin |]).
    inversion Hin. }
  (* the ways out that return data, or panic *)
  assert (forall (o : outcome (option store * option error)),
            (exists d e, o = Val (Some d, e)) \/ (exists msg, o = Panic msg) ->
            forall P : Prop, (P -> False) -> o = Val (None, err) <-> P) as Hout.
  { intros o Ho P HP. split; [| intros HP'; destruct (HP HP')].
    intros ->. destruct Ho as [(d & e & He) | (msg & He)]; discriminate He. }
  destruct (String.eqb_spec kind ReportDetectors) as [Hdet | Hdet]; cbn [orb].
  { apply Hout; [left; eauto |].
    intros (d0 & d1 & _ & _ & [[Hk _] | [Hk _]]).
    - apply (Hother ReportDetectors); [repeat constructor | exact Hdet | exact Hk].
    - apply (Hknown ReportDetectors); [repeat constructor | exact Hdet | exact Hk]. }
  destruct err0 as [e0 |].
  { apply Hout; [left; eauto |]. intros (d0 & d1 & H & _). discriminate H. }
  destruct (String.eqb_spec kind ReportDataFlow) as [Hdf | Hdf]; cbn [negb].
  { destruct (GetDataflow _ _ _ data report config false) as [[data1 [e |]] | msg];
      (apply Hout; [first [left; eauto; fail | right; eauto] |]);
      intros (d0 & d1 & _ & _ & [[Hk _] | [Hk _]]);
      first [ apply (Hother ReportDataFlow);
              [apply list_elem_of_In; cbn; tauto | exact Hdf | exact Hk]
            | apply (Hknown ReportDataFlow);
              [apply list_elem_of_In; cbn; tauto | exact Hdf | exact Hk] ]. }
  destruct (GetDataflow _ _ _ data report config true) as [[data1 [e |]] | msg] eqn:Hflow.
  { apply Hout; [left; eauto |].
    intros (d0 & d1 & [= <-] & H & _). rewrite Hflow in H. discriminate H. }
  2: { apply Hout; [right; eauto |].
       intros (d0 & d1 & [= <-] & H & _). rewrite Hflow in H. discriminate H. }
  destruct (String.eqb_spec kind Flag.ReportSecurity) as [Hsec | Hsec].
  { destruct (security_AddReportData data1 config baseBranchFindings) as [d e].
    destruct (upload_data true config d e) as [d' ->].
    apply Hout; [left; eauto |].
    intros (d0 & d1 & _ & _ & [[Hk _] | [Hk _]]).
    - apply (Hother Flag.ReportSecurity);
        [apply list_elem_of_In; cbn; tauto | exact Hsec | exact Hk].
    - apply (Hknown Flag.ReportSecurity);
        [apply list_elem_of_In; cbn; tauto | exact Hsec | exact Hk]. }
  destruct (String.eqb_spec kind ReportSaaS) as [Hsaas | Hsaas].
  { destruct (security_AddReportData data1 config baseBranchFindings) as [d [e |]] eqn:Hs.
    - split.
      + intros [= <-]. exists data, data1. split; [reflexivity |].
        split; [exact Hflow |]. left. split; [exact Hsaas |]. eauto.
      + intros (d0 & d1 & [= <-] & H & [(_ & d2 & e' & Hs' & ->) | [Hk _]]).
        * rewrite Hflow in H. injection H as <-. rewrite Hs in Hs'.
          injection Hs' as _ <-. reflexivity.
        * exfalso. apply (Hknown ReportSaaS);
            [apply list_elem_of_In; cbn; tauto | exact Hsaas | exact Hk].
    - destruct (saas_GetReport d config false) as [d1 e1].
      destruct (upload_data true config d1 e1) as [d' ->].
      apply Hout; [left; eauto |].
      intros (d0 & d1' & [= <-] & H & [(_ & d2 & e' & Hs' & _) | [Hk _]]).
      + rewrite Hflow in H. injection H as <-. rewrite Hs in Hs'. discriminate Hs'.
      + apply (Hknown ReportSaaS);
          [apply list_elem_of_In; cbn; tauto | exact Hsaas | exact Hk]. }
  destruct (String.eqb_spec kind ReportPrivacy) as [Hpriv | Hpriv].
  { destruct (privacy_AddReportData data1 config) as [d e].
    destruct (upload_data false config d e) as [d' ->].
    apply Hout; [left; eauto |].
    intros (d0 & d1 & _ & _ & [[Hk _] | [Hk _]]); [contradiction |].
    apply (Hknown ReportPrivacy);
      [apply list_elem_of_In; cbn; tauto | exact Hpriv | exact Hk]. }
  destruct (String.eqb_spec kind ReportStats) as [Hstats | Hstats].
  { destruct (stats_AddReportData data1 report config) as [d e].
    destruct (upload_data false config d e) as [d' ->].
    apply Hout; [left; eauto |].
    intros (d0 & d1 & _ & _ & [[Hk _] | [Hk _]]); [contradiction |].
    apply (Hknown ReportStats);
      [apply list_elem_of_In; cbn; tauto | exact Hstats | exact Hk]. }
  split.
  - intros [= <-]. exists data, data1. split; [reflexivity |]. split; [exact Hflow |].
    right. split; [| reflexivity].
    rewrite !elem_of_cons. intros Hin. rewrite elem_of_nil in Hin.
    destruct Hin as [H | [H | [H | [H | [H | [H | H]]]]]]; auto.
  - intros (d0 & d1 & _ & _ & [[Hk _] | [_ ->]]); [contradiction | reflexivity].
Qed.

End GetDataFacts.

Section FormatOutputFacts.

Import Output Pipeline.

Variable detectors_NewFormatter : store -> Config.t -> formatter.
Variable dataflow_NewFormatter : store -> Config.t -> formatter.
Variable security_NewFormatter : store -> Config.t -> option GoclocResult -> Z -> Z -> formatter.
Variable privacy_NewFormatter : store -> Config.t -> formatter.
Variable saas_NewFormatter : store -> Config.t -> formatter.
Variable stats_NewFormatter : store -> Config.t -> formatter.

Variable reportData : store.
Variable config : Config.t.
Variable cacheUsed : bool.
Variable goclocResult : option GoclocResult.
Variables startTime endTime : Z.

Local Abbreviation selected :=
  (selectFormatter detectors_NewFormatter dataflow_NewFormatter security_NewFormatter
     privacy_NewFormatter saas_NewFormatter stats_NewFormatter
     reportData config goclocResult startTime endTime).
Local Abbreviation formatted :=
  (FormatOutput detectors_NewFormatter dataflow_NewFormatter security_NewFormatter
     privacy_NewFormatter saas_NewFormatter stats_NewFormatter
     reportData config cacheUsed goclocResult startTime endTime).

Lemma append_assoc (s1 s2 s3 : string) :
  (s1 ++ (s2 ++ s3))%string = ((s1 ++ s2) ++ s3)%string.
Proof.
  induction s1 as [| c s1 IH]; [reflexivity |].
  change (String c (s1 ++ (s2 ++ s3)) = String c ((s1 ++ s2) ++ s3))%string.
  rewrite IH. reflexivity.
Qed.

Lemma append_nil_r (s : string) : (s ++ "")%string = s.
Proof.
  induction s as [| c s IH]; [reflexivity |].
  change (String c (s ++ "") = String c s)%string.
  rewrite IH. reflexivity.
Qed.

(** X12.  Text that [FormatOutput] returns without an error is never empty:
    it is the text of the report's formatter, which is not empty, followed by
    nothing when the scan is quiet or when there is neither cached data nor
    an upload to tell of; by the note on the cache and a line feed when
    cached data was used and nothing was sent; and, when the data was sent to
    the cloud, by the note on the cache if cached data was used, then the
    note that the upload succeeded or, with the client's error in it, that it
    failed, and a line feed. *)
Theorem FormatOutput_success (out : string) :
  formatted = Val (out, None) ->
  out <> "" /\
  exists format formatStr,
    selected = Some format /\
    format (Flag.ReportOptions.Format (Config.Report config)) = (formatStr, None) /\
    formatStr <> "" /\
    (Flag.ScanOptions.Quiet (Config.Scan config) = true \/
     (ReportData.SendToCloud (data reportData) = false /\ cacheUsed = false) ->
     out = formatStr) /\
    (Flag.ScanOptions.Quiet (Config.Scan config) = false ->
     ReportData.SendToCloud (data reportData) = false ->
     cacheUsed = true ->
     out = (formatStr ++ cached_message ++ nl)%string) /\
    (Flag.ScanOptions.Quiet (Config.Scan config) = false ->
     ReportData.SendToCloud (data reportData) = true ->
     exists client,
       Config.Client config = Some client /\
       out =
         (formatStr ++
          (if cacheUsed then cached_message else "") ++
          match Extern.API.Error client with
          | None => sent_message
          | Some clientError => failed_message clientError
          end ++ nl)%string).
Proof.
  unfold FormatOutput. intros H.
  destruct selected as [format |]; [| discriminate].
  destruct (format (Flag.ReportOptions.Format (Config.Report config)))
    as [formatStr [e |]] eqn:Hf; [discriminate |].
  destruct (String.eqb_spec formatStr "") as [Hempty | Hempty]; [discriminate |].
  assert (forall trailer, (formatStr ++ trailer)%string <> "") as Hne.
  { intros trailer. destruct formatStr; [contradiction | discriminate]. }
  assert (forall s : string, ("" ++ s)%string = s) as Hnil by reflexivity.
  destruct (Flag.ScanOptions.Quiet (Config.Scan config)); cbn [negb andb] in H.
  { injection H as <-. split; [exact Hempty |]. exists format, formatStr.
    repeat (split; [first [reflexivity | assumption | discriminate | intros; reflexivity] |]).
    discriminate. }
  destruct (ReportData.SendToCloud (data reportData)); cbn [orb] in H.
  - destruct (Config.Client config) as [client |]; [| destruct cacheUsed; discriminate].
    assert (out =
              (formatStr ++
               (if cacheUsed then cached_message else "") ++
               match Extern.API.Error client with
               | None => sent_message
               | Some clientError => failed_message clientError
               end ++ nl)%string) as ->.
    { destruct (Extern.API.Error client) as [clientError |], cacheUsed;
        injection H as <-; rewrite ?Hnil, <- ?append_assoc; reflexivity. }
    split; [apply Hne |]. exists format, formatStr.
    split; [reflexivity |]. split; [exact Hf |]. split; [exact Hempty |].
    split; [intros [Hq | [Hs _]]; discriminate |].
    split; [discriminate |].
    intros _ _. exists client. split; reflexivity.
  - destruct cacheUsed.
    + injection H as <-. rewrite <- append_assoc.
      split; [apply Hne |]. exists format, formatStr.
      split; [reflexivity |]. split; [exact Hf |]. split; [exact Hempty |].
      split; [intros [Hq | [_ Hc]]; discriminate |].
      split; [reflexivity | discriminate].
    + injection H as <-.
      split; [exact Hempty |]. exists format, formatStr.
      split; [reflexivity |]. split; [exact Hf |]. split; [exact Hempty |].
      split; [reflexivity |].
      split; discriminate.
Qed.

(** X13.  [FormatOutput] reads [config.Client.Error] without a test for
    [nil]: it panics exactly when the formatter gave a text, the scan is not
    quiet, and the report data is marked as sent to the cloud while the
    configuration has no client.  With a client it always returns. *)
Theorem FormatOutput_panics_iff :
  (returns formatted = false <->
   exists format formatStr,
     selected = Some format /\
     format (Flag.ReportOptions.Format (Config.Report config)) = (formatStr, None) /\
     formatStr <> "" /\
     Flag.ScanOptions.Quiet (Config.Scan config) = false /\
     ReportData.SendToCloud (data reportData) = true /\
     Config.Client config = None) /\
  (Config.Client config <> None -> returns formatted = true).
Proof.
  unfold FormatOutput.
  destruct selected as [format |].
  2: { split; [| reflexivity]. split; [discriminate |].
       intros (f & s & H & _). discriminate. }
  destruct (format (Flag.ReportOptions.Format (Config.Report config)))
    as [formatStr [e |]] eqn:Hf.
  { split; [| reflexivity]. split; [discriminate |].
    intros (f & s & [= <-] & Hs & _). rewrite Hf in Hs. discriminate. }
  destruct (String.eqb_spec formatStr "") as [Hempty | Hempty].
  { split; [| reflexivity]. split; [discriminate |].
    intros (f & s & [= <-] & Hs & Hne & _). rewrite Hf in Hs.
    injection Hs as <-. contradiction. }
  destruct (Flag.ScanOptions.Quiet (Config.Scan config)) eqn:Hq; cbn [negb andb].
  { split; [| reflexivity]. split; [discriminate |].
    intros (f & s & _ & _ & _ & Hq' & _). discriminate. }
  destruct (ReportData.SendToCloud (data reportData)) eqn:Hs; cbn [orb].
  - destruct (Config.Client config) as [client |] eqn:Hc.
    + split; [| intros _; destruct (Extern.API.Error client); reflexivity].
      destruct (Extern.API.Error client) as [clientError |];
        (split; [discriminate |]);
        intros (f & s & _ & _ & _ & _ & _ & Hc'); discriminate.
    + split; [| intros Hc'; contradiction]. split; [| reflexivity].
      intros _. exists format, formatStr. auto 10.
  - split; [| intros _; destruct cacheUsed; reflexivity].
    destruct cacheUsed; (split; [discriminate |]);
      intros (f & s & _ & _ & _ & _ & Hs' & _); discriminate.
Qed.

End FormatOutputFacts.

(** ** Decoded filters are settled at every depth *)

Section Settled.

Import Yaml Decoder Invariant.

Variable cfg : config.

Lemma field_result {A} (key : string) (decode : Node -> A -> result A)
    (content : list (string * Node)) (out x : A) :
  field key decode content out = Ok x ->
  x = out \/ exists v, (key, v) ∈ content /\ decode v out = Ok x.
Proof.
  induction content as [| [k v] content IH]; cbn.
  - intros [= <-]. left. reflexivity.
  - destruct (String.eqb_spec k key) as [-> | Hne].
    + intros H. right. exists v. split; [left | exact H].
    + intros H. destruct (IH H) as [-> | (v' & Hin & Hv)]; [left; reflexivity |].
      right. exists v'. split; [right; exact Hin | exact Hv].
Qed.

Lemma sequence_result {A} (element : Node -> result A) (n : Node) (s : slice A) :
  sequence element n = Ok s ->
  Forall (fun a => exists items item,
            n = Sequence items /\ item ∈ items /\ element item = Ok a) (elems s).
Proof.
  destruct n as [value [| | | |] | content | items]; cbn; try discriminate.
  - intros [= <-]. constructor.
  - match goal with
    | |- match ?go items with _ => _ end = _ -> _ =>
        assert (forall l, go items = Ok l ->
                  Forall (fun a => exists item, item ∈ items /\ element item = Ok a) l)
          as Hgo
    end.
    { induction items as [| item items IH]; intros l.
      - intros [= <-]. constructor.
      - destruct (is_null item).
        + intros H. eapply Forall_impl; [apply IH; exact H |].
          intros a (item' & Hin & Ha). exists item'. split; [right; exact Hin | exact Ha].
        + destruct (element item) as [a |] eqn:Ha; [| discriminate].
          match goal with
          | |- match ?rest with _ => _ end = _ -> _ =>
              destruct rest as [l' |] eqn:Hrest; [| discriminate]
          end.
          intros [= <-]. constructor.
          * exists item. split; [left | exact Ha].
          * eapply Forall_impl; [apply IH; reflexivity |].
            intros a' (item' & Hin & Ha'). exists item'.
            split; [right; exact Hin | exact Ha']. }
    match goal with
    | |- match ?go items with _ => _ end = _ -> _ =>
        destruct (go items) as [l |] eqn:Hl; [| discriminate]
    end.
    intros [= <-]. cbn. eapply Forall_impl; [apply Hgo; reflexivity |].
    intros a (item & Hin & Ha). exists items, item. auto.
Qed.

Lemma size_item (items : list Node) (item : Node) :
  item ∈ items -> size item < size (Sequence items).
Proof.
  intros Hin.
  induction Hin as [item items | item item' items Hin IH];
    cbn in *; unfold list_sum in *; lia.
Qed.

Lemma size_entry (content : list (string * Node)) (key : string) (v : Node) :
  (key, v) ∈ content -> size v < size (Mapping content).
Proof.
  intros Hin.
  remember (key, v) as entry eqn:He.
  induction Hin as [entry content | entry entry' content Hin IH]; subst;
    cbn in *; unfold list_sum in *; [lia |].
  specialize (IH eq_refl). lia.
Qed.

Lemma wrapper_mapping_parts (filter : Node -> result PatternFilter.t)
    (content : list (string * Node)) (out w : PatternFilter.t) :
  wrapper_mapping cfg filter content out = Ok w ->
  field "not" (fun v _ => pointer filter v) content (PatternFilter.Not out)
    = Ok (PatternFilter.Not w) /\
  field "either" (fun v _ => sequence filter v) content (PatternFilter.Either out)
    = Ok (PatternFilter.Either w) /\
  field "filters" (fun v _ => sequence filter v) content (PatternFilter.Filters out)
    = Ok (PatternFilter.Filters w).
Proof.
  unfold wrapper_mapping.
  repeat match goal with
         | |- Go.bind ?r _ = Ok _ -> _ =>
             destruct r eqn:?; cbn [Go.bind]; [| discriminate]
         end.
  intros [= <-]. cbn. repeat split; first [assumption | reflexivity].
Qed.

Lemma rawRulePattern_mapping_parts (filter : Node -> result PatternFilter.t)
    (content : list (string * Node)) (out rp : RulePattern.t) :
  rawRulePattern_mapping cfg filter content out = Ok rp ->
  field "filters" (fun v _ => sequence filter v) content (RulePattern.Filters out)
    = Ok (RulePattern.Filters rp).
Proof.
  unfold rawRulePattern_mapping.
  repeat match goal with
         | |- Go.bind ?r _ = Ok _ -> _ =>
             destruct r eqn:?; cbn [Go.bind]; [| discriminate]
         end.
  intros [= <-]. cbn. first [assumption | reflexivity].
Qed.

(** The filters of a decoded sequence are settled when those of its items
    are. *)
Lemma sequence_settled (n : Node) (s : slice PatternFilter.t) :
  (forall item f, size item < size n -> decode_PatternFilter cfg item = Ok f -> settled f) ->
  sequence (decode_PatternFilter cfg) n = Ok s ->
  Forall settled (elems s).
Proof.
  intros IH Hs. apply sequence_result in Hs.
  eapply Forall_impl; [exact Hs |].
  intros f (items & item & -> & Hin & Hf).
  apply (IH item f); [apply size_item; exact Hin | exact Hf].
Qed.

Lemma decode_PatternFilter_settled_below (k : nat) :
  forall n f, size n < k -> decode_PatternFilter cfg n = Ok f -> settled f.
Proof.
  induction k as [| k IH]; intros n f Hk Hf; [lia |].
  unfold decode_PatternFilter in Hf.
  destruct (unmarshal cfg n to_wrapper PatternFilter.zero) as [w | e] eqn:Hw.
  2: { unfold PatternFilter_UnmarshalYAML in Hf. rewrite Hw in Hf. discriminate. }
  rewrite (PatternFilter_UnmarshalYAML_cases _ w _ Hw) in Hf. injection Hf as <-.
  assert ((forall inner, PatternFilter.Not w = Some inner -> settled inner) /\
          Forall settled (elems (PatternFilter.Either w)) /\
          Forall settled (elems (PatternFilter.Filters w))) as (Hnot & Heither & Hfilters).
  { destruct n as [value resolved | content | items].
    - destruct resolved; cbn in Hw; try discriminate.
      injection Hw as <-. cbn.
      split; [intros inner Hinner; discriminate | split; constructor].
    - rewrite unmarshal_wrapper in Hw.
      apply wrapper_mapping_parts in Hw as (Hn & He & Hf).
      assert (forall v s, (exists key, (key, v) ∈ content) ->
                sequence (decode_PatternFilter cfg) v = Ok s ->
                Forall settled (elems s)) as Hseq.
      { intros v s [key Hin] Hs. apply (sequence_settled v s); [| exact Hs].
        intros item g Hlt Hg. apply (IH item g); [| exact Hg].
        pose proof (size_entry content key v Hin). lia. }
      split; [| split].
      + intros inner Hinner.
        apply field_result in Hn as [Hz | (v & Hin & Hp)].
        { rewrite Hz in Hinner. discriminate. }
        unfold pointer in Hp. destruct (is_null v).
        { rewrite Hinner in Hp. discriminate. }
        destruct (decode_PatternFilter cfg v) as [g |] eqn:Hg; [| discriminate].
        rewrite Hinner in Hp. injection Hp as ->.
        apply (IH v inner); [| exact Hg].
        pose proof (size_entry content _ v Hin). lia.
      + apply field_result in He as [-> | (v & Hin & Hs)]; [constructor |].
        apply (Hseq v); eauto.
      + apply field_result in Hf as [-> | (v & Hin & Hs)]; [constructor |].
        apply (Hseq v); eauto.
    - cbn in Hw. discriminate. }
  destruct w as [n0 e v d sc fs i c r vs l1 l2 l3 l4 l5 sr fr]. cbn in *.
  destruct (String.eqb_spec d "") as [Hd | Hd].
  - constructor; cbn; auto; intros; contradiction.
  - destruct c as [[|] |]; destruct (String.eqb_spec sc "") as [Hs | Hs];
      constructor; cbn; auto; intros; try discriminate; try reflexivity.
Qed.

End Settled.

(** X14.  A filter that the decoder returns is settled at every depth: the
    hook has run on the filter and on each filter under its [not], [either]
    and [filters], so wherever a detection is named there is a scope, and it
    is [cursor] where [contains: false] stands.  The same holds for the
    filters of a decoded rule pattern. *)
Theorem decoded_filters_settled (cfg : Decoder.config) (n : Yaml.Node) :
  (forall filter,
     Decoder.decode_PatternFilter cfg n = Ok filter -> Invariant.settled filter) /\
  (forall rulePattern,
     Decoder.decode_RulePattern cfg n = Ok rulePattern ->
     Forall Invariant.settled (elems (RulePattern.Filters rulePattern))).
Proof.
  split.
  - intros filter. apply (decode_PatternFilter_settled_below cfg (S (Invariant.size n))). lia.
  - intros rulePattern. unfold Decoder.decode_RulePattern, RulePattern_UnmarshalYAML.
    destruct (Decoder.unmarshal cfg n to_string "") as [pattern | e] eqn:Hs.
    { intros [= <-]. constructor. }
    destruct n as [value resolved | content | items].
    + destruct resolved; cbn in *; try discriminate.
    + rewrite unmarshal_rawRulePattern. intros H.
      apply rawRulePattern_mapping_parts in H.
      apply field_result in H as [-> | (v & Hin & Hv)]; [constructor |].
      apply (sequence_settled cfg v); [| exact Hv].
      intros item f _. apply (decode_PatternFilter_settled_below cfg (S (Invariant.size item))).
      lia.
    + cbn. discriminate.
Qed.

(** ** The properties above at concrete inputs *)

Lemma decoded_filters_settled_witness :
  exists filter,
    Decoder.decode_PatternFilter Decoder.strict Cases.yaml_nested = Ok filter /\
    Invariant.settled filter.
Proof.
  eexists. split; [vm_compute; reflexivity |].
  apply (proj1 (decoded_filters_settled Decoder.strict Cases.yaml_nested)).
  vm_compute. reflexivity.
Defined.


Lemma FromOptions_rego_modules_witness :
  exists config policy',
    FromOptions (Ok Examples.policies_yml) Examples.policiesFs Examples.loadRules_ok
      Examples.no_ignores (Examples.options None "security" "") None
      = Val (config, None) /\
    Config.Policies config !! "privacy_report" = Some policy' /\
    length (elems (Rego.ToRegoModules (Policy.Modules policy'))) = 2.
Proof.
  assert (exists config,
            FromOptions (Ok Examples.policies_yml) Examples.policiesFs
              Examples.loadRules_ok Examples.no_ignores
              (Examples.options None "security" "") None
            = Val (config, None)) as [config Hload].
  { eexists. vm_compute. reflexivity. }
  destruct (FromOptions_rego_modules (Ok Examples.policies_yml)
              Examples.policiesFs Examples.loadRules_ok Examples.no_ignores
              (Examples.options None "security" "") None
              config _ "privacy_report" _ Hload eq_refl eq_refl)
    as (policy' & Hlook & Hmods).
  exists config, policy'. split; [exact Hload |]. split; [exact Hlook |].
  apply Forall2_length in Hmods. rewrite <- Hmods. reflexivity.
Defined.

Lemma setIds_frame_witness :
  exists h',
    Output.setIds Examples.uuids_run1 0 Cases.repeated_detection
      (Output.heap Examples.two_detections) = Val h' /\
    dom h' = dom (Output.heap Examples.two_detections) /\
    Output.heaps_agree (Output.heap Examples.two_detections) h'.
Proof.
  eexists. split; [vm_compute; reflexivity |].
  destruct (Output.setIds Examples.uuids_run1 0 Cases.repeated_detection
              (Output.heap Examples.two_detections)) as [h' | msg] eqn:Hloop.
  - destruct (setIds_frame Examples.uuids_run1 Cases.repeated_detection 0
                (Output.heap Examples.two_detections) h' Hloop) as (Hdom & Hagree & _).
    vm_compute in Hloop. injection Hloop as <-. split; [exact Hdom | exact Hagree].
  - vm_compute in Hloop. discriminate Hloop.
Defined.

Lemma setIds_in_order_witness :
  exists h' m,
    Output.setIds Examples.uuids_run1 0 Cases.repeated_detection
      (Output.heap Examples.two_detections) = Val h' /\
    h' !! 1 = Some m /\
    m !! "id" = Some (Output.VString (Examples.uuids_run1 1)).
Proof.
  assert (exists h',
            Output.setIds Examples.uuids_run1 0 Cases.repeated_detection
              (Output.heap Examples.two_detections) = Val h') as [h' Hloop].
  { eexists. vm_compute. reflexivity. }
  destruct (setIds_in_order Examples.uuids_run1 Cases.repeated_detection 0
              (Output.heap Examples.two_detections) h' 1 1 Hloop eq_refl)
    as (m & Hm & Hid).
  - intros [| [| [| j]]] Hj; try lia; discriminate.
  - exists h', m. split; [exact Hloop |]. split; [exact Hm | exact Hid].
Defined.

Lemma GetData_nil_data_witness :
  exists data0 data1,
    Examples.detectors_none Pipeline.empty_data (Output.report 0)
      (Cases.config_for None "saas" "json" false) = (data0, None) /\
    Output.GetDataflow Examples.detectors_none Examples.dataflow_unchanged
      Examples.uuids_run1 data0 (Output.report 0)
      (Cases.config_for None "saas" "json" false) true = Val (data1, None) /\
    ((Flag.ReportOptions.Report
        (Config.Report (Cases.config_for None "saas" "json" false)) = Pipeline.ReportSaaS /\
      exists data2 e,
        Cases.security_fails data1 (Cases.config_for None "saas" "json" false) None
          = (data2, Some e) /\
        Some "failed to evaluate policies" = Some e) \/
     ((Flag.ReportOptions.Report
         (Config.Report (Cases.config_for None "saas" "json" false)) ∉
         [Pipeline.ReportDetectors; Pipeline.ReportDataFlow; Flag.ReportSecurity;
          Pipeline.ReportSaaS; Pipeline.ReportPrivacy; Pipeline.ReportStats]) /\
      Some "failed to evaluate policies" =
        Some (Pipeline.not_supported
                (Flag.ReportOptions.Report
                   (Config.Report (Cases.config_for None "saas" "json" false)))))).
Proof.
  apply (proj1 (GetData_nil_data Examples.detectors_none Examples.dataflow_unchanged
                  Examples.uuids_run1 Cases.security_fails Cases.saas_unchanged
                  Cases.step_unchanged Cases.stats_unchanged Cases.send_nothing
                  (Output.report 0) (Cases.config_for None "saas" "json" false) None
                  (Some "failed to evaluate policies"))).
  vm_compute. reflexivity.
Defined.

Lemma FormatOutput_success_witness :
  exists out,
    Pipeline.FormatOutput Cases.count_formatter Cases.count_formatter
      Cases.count_formatter_security Cases.count_formatter Cases.count_formatter
      Cases.count_formatter Examples.two_detections
      (Cases.config_for None "detectors" "json" false) true None 0 0 = Val (out, None) /\
    out = ("[...]" ++ Pipeline.cached_message ++ Pipeline.nl)%string.
Proof.
  assert (exists out,
            Pipeline.FormatOutput Cases.count_formatter Cases.count_formatter
              Cases.count_formatter_security Cases.count_formatter Cases.count_formatter
              Cases.count_formatter Examples.two_detections
              (Cases.config_for None "detectors" "json" false) true None 0 0
            = Val (out, None)) as [out Hout].
  { eexists. vm_compute. reflexivity. }
  exists out. split; [exact Hout |].
  destruct (FormatOutput_success Cases.count_formatter Cases.count_formatter
              Cases.count_formatter_security Cases.count_formatter Cases.count_formatter
              Cases.count_formatter Examples.two_detections
              (Cases.config_for None "detectors" "json" false) true None 0 0 out Hout)
    as (_ & format & formatStr & Hsel & Hf & _ & _ & Hcached & _).
  vm_compute in Hsel. injection Hsel as <-.
  vm_compute in Hf. injection Hf as <-.
  exact (Hcached eq_refl eq_refl eq_refl).
Defined.

Lemma FormatOutput_panics_iff_witness :
  returns
    (Pipeline.FormatOutput Cases.count_formatter Cases.count_formatter
       Cases.count_formatter_security Cases.count_formatter Cases.count_formatter
       Cases.count_formatter Cases.sent_data
       (Cases.config_for None "security" "json" false) false None 0 0) = false /\
  returns
    (Pipeline.FormatOutput Cases.count_formatter Cases.count_formatter
       Cases.count_formatter_security Cases.count_formatter Cases.count_formatter
       Cases.count_formatter Cases.sent_data
       (Cases.config_for (Some (Extern.API.mk None)) "security" "json" false)
       false None 0 0) = true.
Proof.
  split.
  - apply (proj1 (FormatOutput_panics_iff Cases.count_formatter Cases.count_formatter
                    Cases.count_formatter_security Cases.count_formatter
                    Cases.count_formatter Cases.count_formatter Cases.sent_data
                    (Cases.config_for None "security" "json" false) false None 0 0)).
    exists (Cases.count_formatter_security Cases.sent_data
              (Cases.config_for None "security" "json" false) None 0%Z 0%Z), "[...]".
    repeat split. discriminate.
  - apply (proj2 (FormatOutput_panics_iff Cases.count_formatter Cases.count_formatter
                    Cases.count_formatter_security Cases.count_formatter
                    Cases.count_formatter Cases.count_formatter Cases.sent_data
                    (Cases.config_for (Some (Extern.API.mk None)) "security" "json" false)
                    false None 0 0)).
    discriminate.
Defined.
